(** * The wallet and restart commands of go-btfs

    A shallow embedding of [core/commands/wallet.go] and
    [core/commands/restart.go], and the properties of the password gate,
    of the monetary commands and of the restart sequence.

    The commands are plumbing around collaborators that live in other
    packages (the node and its repo, the [wallet] package, the process
    API).  Each command is embedded as a function in a small monad that
    threads the repo's configuration object and a chronological log of
    every call made to a collaborator, together with the answer it gave.
    The collaborators themselves are a record of functions ([World]),
    over which every theorem quantifies. *)

From Stdlib Require Import ZArith Lia List Bool Ascii String.
From stdpp Require Import base option gmap strings.
From stdpp Require Import pretty.

Import ListNotations.
Local Open Scope string_scope.
Local Open Scope Z_scope.

(** ** Go values used by the commands *)

(** The [error] interface, as far as the commands observe it: a value is
    made by [errors.New], is a [*strconv.NumError], or comes from another
    package and is seen through its [Error()] text only. *)
Inductive error : Type :=
| errorString (s : string)
| NumError (Func Num : string) (Err : error)
| foreignError (s : string).

#[global] Instance error_eq_dec : EqDecision error.
Proof. solve_decision. Defined.

(** [errors.New]. *)
Definition errors_New (s : string) : error := errorString s.

(** [strconv.ErrSyntax] and [strconv.ErrRange]. *)
Definition ErrSyntax : error := errors_New "invalid syntax".
Definition ErrRange : error := errors_New "value out of range".

(** A Go pair [(v, err)] of which the caller reads [v] only when
    [err == nil]. *)
Inductive result (T : Type) : Type :=
| Ok (v : T)
| Err (e : error).
Arguments Ok {T} v.
Arguments Err {T} e.

#[global] Instance result_eq_dec {T} `{EqDecision T} : EqDecision (result T).
Proof. solve_decision. Defined.

(** [strings.HasPrefix]. *)
Fixpoint HasPrefix (s prefix : string) : bool :=
  match prefix, s with
  | EmptyString, _ => true
  | String _ _, EmptyString => false
  | String b p', String a s' => Ascii.eqb a b && HasPrefix s' p'
  end.

(** [strings.Contains]: [substr] occurs at some index of [s]. *)
Fixpoint Contains (s substr : string) : bool :=
  HasPrefix s substr ||
  match s with
  | EmptyString => false
  | String _ s' => Contains s' substr
  end.

(** *** [strconv.ParseInt(s, 10, 64)] *)

Definition maxUint64 : Z := 2 ^ 64 - 1.

(** [lower(c)] of package strconv: [c | ('x' - 'X')]. *)
Definition lower (c : Z) : Z := Z.lor c 32.

(** The digit value of a byte, or [None] where [ParseUint] reports a
    syntax error: the byte is no digit or letter, or its value is not
    below the base, 10. *)
Definition digit (c : ascii) : option Z :=
  let c := Z.of_N (N_of_ascii c) in
  let d :=
    if (48 <=? c) && (c <=? 57) then Some (c - 48)
    else if (97 <=? lower c) && (lower c <=? 122) then Some (lower c - 97 + 10)
    else None in
  match d with
  | Some d => if 10 <=? d then None else Some d
  | None => None
  end.

(** The loop of [ParseUint] over the bytes of [s], with accumulator [n]:
    [n *= 10; n1 := n + d] in [uint64], an overflow being reported as
    soon as it is met. *)
Fixpoint ParseUint_loop (s : string) (n : Z) : result Z :=
  match s with
  | EmptyString => Ok n
  | String c s' =>
      match digit c with
      | None => Err ErrSyntax
      | Some d =>
          if maxUint64 / 10 + 1 <=? n then Err ErrRange
          else
            let n := (n * 10) mod 2 ^ 64 in
            let n1 := (n + d) mod 2 ^ 64 in
            if (n1 <? n) || (maxUint64 <? n1) then Err ErrRange
            else ParseUint_loop s' n1
      end
  end.

(** [ParseUint(s, 10, 64)]; on a range error the value is [maxVal]. *)
Definition ParseUint (s : string) : Z * option error :=
  match s with
  | EmptyString => (0, Some ErrSyntax)
  | _ =>
      match ParseUint_loop s 0 with
      | Ok n => (n, None)
      | Err e => (if decide (e = ErrRange) then maxUint64 else 0, Some e)
      end
  end.

Definition ParseInt (s0 : string) : result Z :=
  match s0 with
  | EmptyString => Err (NumError "ParseInt" s0 ErrSyntax)
  | String c rest =>
      let neg := Ascii.eqb c "-" in
      let s := if Ascii.eqb c "+" || neg then rest else s0 in
      let '(un, err) := ParseUint s in
      let cutoff := 2 ^ 63 in
      let in_range :=
        if negb neg && (cutoff <=? un) then Err (NumError "ParseInt" s0 ErrRange)
        else if neg && (cutoff <? un) then Err (NumError "ParseInt" s0 ErrRange)
        else Ok (if neg then - un else un) in
      match err with
      | Some e =>
          if decide (e = ErrRange) then in_range
          else Err (NumError "ParseInt" s0 e)
      | None => in_range
      end
  end.

(** ** The data the commands work on *)

(** [cmds.Request]: positional arguments and the option map, whose values
    are of dynamic type ([interface{}]). *)
Inductive OptValue : Type :=
| VBool (b : bool)
| VString (s : string).

Record Request : Type := {
  Arguments : list string;
  Options : gmap string OptValue;
}.

(** [v, _ := req.Options[name].(string)]: the zero value when the option
    is absent or of another type. *)
Definition option_string (req : Request) (name : string) : string :=
  match Options req !! name with
  | Some (VString s) => s
  | _ => ""
  end.

(** [v, _ := req.Options[name].(bool)]. *)
Definition option_bool (req : Request) (name : string) : bool :=
  match Options req !! name with
  | Some (VBool b) => b
  | _ => false
  end.

Definition asyncOptionName : string := "async".
Definition passwordOptionName : string := "password".
Definition postPathModificationName : string := "post-path-modification".

(** The values the commands emit.  The field [Mnemonic] of [Keys] is
    written [Mnemonic_] here, apart from the field of the configuration. *)
Record Keys : Type := {
  PrivateKey : string;
  Mnemonic_ : string;
}.

Record TransferResult : Type := {
  Result : bool;
  Message : string;
}.

Inductive Output : Type :=
| MessageOutput (Message : string)
| OutKeys (k : Keys)
| OutTransferResult (r : TransferResult).

(** What [wallet.TransferBTT] returns, with the two fields the transfer
    command reads; [TxId] is the text [%v] prints for it. *)
Record TronRet : Type := {
  TxId : string;
  ret_Result : bool;
}.

(** [core.IpfsNode], with the field the commands read.  Its [Repo] is
    reached through the collaborators below. *)
Record Node : Type := {
  IsDaemon : bool;
}.

(** [exec.Cmd]; [Env = None] is the nil slice, with which the child
    inherits the environment of the current process. *)
Record Cmd : Type := {
  Path : string;
  Args : list string;
  Env : option (list string);
}.

(** [exec.Command(name, arg...)]. *)
Definition exec_Command (name : string) (arg : list string) : Cmd :=
  {| Path := name; Args := name :: arg; Env := None |}.

(** How a command ends: it returns, panics, or the process exits. *)
Inductive outcome (A : Type) : Type :=
| Done (a : A)
| Panicked (msg : string)
| Exited (code : Z).
Arguments Done {A} a.
Arguments Panicked {A} msg.
Arguments Exited {A} code.

Section Model.

(** [config.Config] is declared in go-btfs-config; the commands name five
    of its fields.  The remaining fields of each struct are kept as one
    component of an arbitrary type [Other]. *)
Variable Other : Type.

Record config_Identity : Type := {
  PrivKey : string;
  Mnemonic : string;
  EncryptedPrivKey : string;
  EncryptedMnemonic : string;
  Identity_other : Other;
}.

Record config_Wallet : Type := {
  Initialized : bool;
}.

Record config_UI : Type := {
  Wallet : config_Wallet;
  UI_other : Other;
}.

Record Config : Type := {
  Identity : config_Identity;
  UI : config_UI;
  Config_other : Other;
}.

(** [cfg.Identity.EncryptedMnemonic = v] and
    [cfg.Identity.EncryptedPrivKey = v]. *)
Definition set_EncryptedMnemonic (v : string) (cfg : Config) : Config :=
  {| Identity :=
       {| PrivKey := PrivKey (Identity cfg);
          Mnemonic := Mnemonic (Identity cfg);
          EncryptedPrivKey := EncryptedPrivKey (Identity cfg);
          EncryptedMnemonic := v;
          Identity_other := Identity_other (Identity cfg) |};
     UI := UI cfg;
     Config_other := Config_other cfg |}.

Definition set_EncryptedPrivKey (v : string) (cfg : Config) : Config :=
  {| Identity :=
       {| PrivKey := PrivKey (Identity cfg);
          Mnemonic := Mnemonic (Identity cfg);
          EncryptedPrivKey := v;
          EncryptedMnemonic := EncryptedMnemonic (Identity cfg);
          Identity_other := Identity_other (Identity cfg) |};
     UI := UI cfg;
     Config_other := Config_other cfg |}.

(** ** Calls to collaborators *)

(** One entry of the log per call that leaves the command, with the
    answer the collaborator gave. *)
Inductive event : Type :=
| EvGetNode (r : result Node)
| EvRepoConfig (r : option error)
| EvRepoSetConfig (cfg : Config) (r : option error)
| EvEncryptWithAES (key message : string) (r : result string)
| EvDecryptWithAES (key message : string) (r : result string)
| EvWalletDeposit (amount : Z) (runDaemon async : bool) (r : option error)
| EvWalletWithdraw (amount : Z) (r : option error)
| EvTransferBTT (to : string) (amount : Z) (r : result TronRet)
| EvLogError (msg : string) (e : error)
| EvEmitOnce (v : Output) (r : option error)
| EvMoveFolder (r : option error)
| EvWriteProperties (r : option error)
| EvStart (c : Cmd) (r : option error)
| EvExit (code : Z).

(** The collaborators.  None of them is part of these two files: the
    commands treat each as an opaque call.  An answer may depend on
    everything that happened before (the log) and on the arguments.  The
    two AES functions are functions of their arguments alone, as the
    deterministic cipher the password gate relies on.  [Repo_Config]
    answers with an error or hands out the pointer to the repo's
    configuration object, which is the [config] component of [State]. *)
Record World : Type := {
  cmdenv_GetNode : list event -> result Node;
  Repo_Config : list event -> option error;
  Repo_SetConfig : list event -> Config -> option error;
  wallet_EncryptWithAES : string -> string -> result string;
  wallet_DecryptWithAES : string -> string -> result string;
  wallet_WalletDeposit :
    list event -> Config -> Node -> Z -> bool -> bool -> option error;
  wallet_WalletWithdraw : list event -> Config -> Node -> Z -> option error;
  wallet_TransferBTT :
    list event -> Node -> Config -> string -> Z -> result TronRet;
  cmds_EmitOnce : list event -> Output -> option error;
  path_MoveFolder : list event -> option error;
  path_WriteProperties : list event -> option error;
  exec_Start : list event -> Cmd -> option error;
  os_Environ : list event -> list string;
  strconv_Quote : string -> string;
  path_Excutable : string;
  path_StorePath : string;
  path_OriginPath : string;
}.

(** ** The command monad *)

Record State : Type := {
  config : Config;
  log : list event;
}.

Definition M (A : Type) : Type := State -> outcome A * State.

Definition ret {A} (a : A) : M A := fun st => (Done a, st).

Definition bind {A B} (c : M A) (k : A -> M B) : M B :=
  fun st =>
    match c st with
    | (Done a, st') => k a st'
    | (Panicked msg, st') => (Panicked msg, st')
    | (Exited code, st') => (Exited code, st')
    end.

Definition panic {A} (msg : string) : M A := fun st => (Panicked msg, st).

(** Append an entry to the log. *)
Definition record (e : event) : M unit :=
  fun st => (Done tt, {| config := config st; log := log st ++ [e] |}).

(** Call a collaborator: its answer is computed from the log so far and
    recorded. *)
Definition call {A} (f : list event -> A) (ev : A -> event) : M A :=
  fun st =>
    let r := f (log st) in
    (Done r, {| config := config st; log := log st ++ [ev r] |}).

(** Read the configuration object through the pointer [cfg]. *)
Definition load : M Config := fun st => (Done (config st), st).

(** Write the configuration object through the pointer [cfg]. *)
Definition store (f : Config -> Config) : M unit :=
  fun st => (Done tt, {| config := f (config st); log := log st |}).

(** [a[i]], which panics out of range. *)
Definition index (a : list string) (i : nat) : M string :=
  match nth_error a i with
  | Some v => ret v
  | None => panic "runtime error: index out of range"
  end.

(** ** The commands *)

Variable W : World.

Notation "x <- c ;; k" := (bind c (fun x => k))
  (at level 62, c at next level, right associativity).

(** [v, err := c; if err != nil { return err }]. *)
Notation "'try' x <- c ;; k" :=
  (bind c (fun r => match r with Err e => ret (Some e) | Ok x => k end))
  (at level 62, x name, c at next level, right associativity).

(** [if err := c; err != nil { return err }]. *)
Notation "'check' c ;; k" :=
  (bind c (fun r => match r with Some e => ret (Some e) | None => k end))
  (at level 62, c at next level, right associativity).

(** The method [Error()] of an error value. *)
Fixpoint Error (e : error) : string :=
  match e with
  | errorString s => s
  | NumError Func Num err =>
      "strconv." ++ Func ++ ": parsing " ++ strconv_Quote W Num ++ ": "
        ++ Error err
  | foreignError s => s
  end.

(** [cmdenv.GetNode(env)]. *)
Definition GetNode : M (result Node) := call (cmdenv_GetNode W) EvGetNode.

(** [n.Repo.Config()]: an error, or the pointer [cfg]. *)
Definition Repo_Config_ : M (result unit) :=
  r <- call (Repo_Config W) EvRepoConfig ;;
  ret (match r with Some e => Err e | None => Ok tt end).

(** [n.Repo.SetConfig(cfg)], with the object [cfg] points to. *)
Definition SetConfig : M (option error) :=
  cfg <- load ;;
  call (fun l => Repo_SetConfig W l cfg) (EvRepoSetConfig cfg).

Definition EncryptWithAES (key message : string) : M (result string) :=
  call (fun _ => wallet_EncryptWithAES W key message)
       (EvEncryptWithAES key message).

Definition DecryptWithAES (key message : string) : M (result string) :=
  call (fun _ => wallet_DecryptWithAES W key message)
       (EvDecryptWithAES key message).

Definition EmitOnce (v : Output) : M (option error) :=
  call (fun l => cmds_EmitOnce W l v) (EvEmitOnce v).

Definition errMissingPassword : error :=
  errors_New
    ("Password required, please use '-p <password>' to specify the password. "
     ++ String (ascii_of_nat 10)
     "Try 'btfs wallet password --help' and assign a password if password is not set.").

Definition errIncorrectPassword : error := errors_New "incorrect password".

(** [validatePassword(cfg, req)] (wallet.go, line 411). *)
Definition validatePassword (req : Request) : M (option error) :=
  let password := option_string req passwordOptionName in
  if String.eqb password "" then ret (Some errMissingPassword)
  else
    cfg <- load ;;
    r <- DecryptWithAES password (EncryptedPrivKey (Identity cfg)) ;;
    match r with
    | Err _ => ret (Some errIncorrectPassword)
    | Ok privK =>
        if negb (String.eqb (PrivKey (Identity cfg)) privK)
        then ret (Some errIncorrectPassword)
        else ret None
    end.

Definition errDepositThreshold : error :=
  errors_New "Please deposit at least 10,000,000µBTT(=10BTT)".

Definition errWithdrawThreshold : error :=
  errors_New "Please withdraw at least 1,000,000,000µBTT(=1000BTT)".

(** [walletDepositCmd.Run] (wallet.go, line 105). *)
Definition walletDepositCmd (req : Request) : M (option error) :=
  try n <- GetNode ;;
  try _ <- Repo_Config_ ;;
  check validatePassword req ;;
  let async := option_bool req asyncOptionName in
  arg0 <- index (Arguments req) 0 ;;
  try amount <- ret (ParseInt arg0) ;;
  r <- GetNode ;;
  match r with
  | Err err =>
      _ <- record (EvLogError "Wrong while get current Node information" err) ;;
      ret (Some err)
  | Ok currentNode =>
      let runDaemon := IsDaemon currentNode in
      cfg <- load ;;
      err <- call (fun l => wallet_WalletDeposit W l cfg n amount runDaemon async)
                  (EvWalletDeposit amount runDaemon async) ;;
      match err with
      | Some err =>
          if Contains (Error err) "Please deposit at least"
          then ret (Some errDepositThreshold)
          else ret (Some err)
      | None =>
          let s :=
            if negb runDaemon then "BTFS wallet deposit Done."
            else "BTFS wallet deposit submitted. Please wait one minute for the transaction to confirm." in
          EmitOnce (MessageOutput s)
      end
  end.

(** [walletWithdrawCmd.Run] (wallet.go, line 168). *)
Definition walletWithdrawCmd (req : Request) : M (option error) :=
  try n <- GetNode ;;
  try _ <- Repo_Config_ ;;
  check validatePassword req ;;
  arg0 <- index (Arguments req) 0 ;;
  try amount <- ret (ParseInt arg0) ;;
  cfg <- load ;;
  err <- call (fun l => wallet_WalletWithdraw W l cfg n amount)
              (EvWalletWithdraw amount) ;;
  match err with
  | Some err =>
      if Contains (Error err) "Please withdraw at least"
      then ret (Some errWithdrawThreshold)
      else ret (Some err)
  | None =>
      EmitOnce (MessageOutput
        "BTFS wallet withdraw submitted. Please wait one minute for the transaction to confirm.")
  end.

(** [walletTransferCmd.Run] (wallet.go, line 382). *)
Definition walletTransferCmd (req : Request) : M (option error) :=
  try n <- GetNode ;;
  try _ <- Repo_Config_ ;;
  check validatePassword req ;;
  arg1 <- index (Arguments req) 1 ;;
  try amount <- ret (ParseInt arg1) ;;
  arg0 <- index (Arguments req) 0 ;;
  cfg <- load ;;
  try ret_ <- call (fun l => wallet_TransferBTT W l n cfg arg0 amount)
                   (EvTransferBTT arg0 amount) ;;
  let msg := "transaction " ++ TxId ret_ ++ " sent" in
  EmitOnce (OutTransferResult {| Result := ret_Result ret_; Message := msg |}).

Definition errAlreadyInit : error :=
  errors_New "Already init, cannot set password again.".

(** [walletPasswordCmd.Run] (wallet.go, line 254). *)
Definition walletPasswordCmd (req : Request) : M (option error) :=
  try n <- GetNode ;;
  try _ <- Repo_Config_ ;;
  cfg <- load ;;
  if Initialized (Wallet (UI cfg)) then ret (Some errAlreadyInit)
  else
    arg0 <- index (Arguments req) 0 ;;
    cfg <- load ;;
    try cipherMnemonic <- EncryptWithAES arg0 (Mnemonic (Identity cfg)) ;;
    arg0 <- index (Arguments req) 0 ;;
    cfg <- load ;;
    try cipherPrivKey <- EncryptWithAES arg0 (PrivKey (Identity cfg)) ;;
    _ <- store (set_EncryptedMnemonic cipherMnemonic) ;;
    _ <- store (set_EncryptedPrivKey cipherPrivKey) ;;
    check SetConfig ;;
    EmitOnce (MessageOutput "Password set.").

(** [walletCheckPasswordCmd.Run] (wallet.go, line 294). *)
Definition walletCheckPasswordCmd (req : Request) : M (option error) :=
  try n <- GetNode ;;
  try _ <- Repo_Config_ ;;
  check validatePassword req ;;
  EmitOnce (MessageOutput "Password is correct.").

(** [walletKeysCmd.Run] (wallet.go, line 318). *)
Definition walletKeysCmd (req : Request) : M (option error) :=
  try n <- GetNode ;;
  try _ <- Repo_Config_ ;;
  cfg <- load ;;
  let keys :=
    if negb (Initialized (Wallet (UI cfg))) then
      {| PrivateKey := PrivKey (Identity cfg);
         Mnemonic_ := Mnemonic (Identity cfg) |}
    else
      {| PrivateKey := EncryptedPrivKey (Identity cfg);
         Mnemonic_ := EncryptedMnemonic (Identity cfg) |} in
  EmitOnce (OutKeys keys).

(** [req.Options[name].(bool)], which panics when the value is not a
    [bool]. *)
Definition assert_bool (req : Request) (name : string) : M bool :=
  match Options req !! name with
  | Some (VBool b) => ret b
  | _ => panic "interface conversion: interface {} is not bool"
  end.

(** [os.Exit(code)]. *)
Definition os_Exit {A} (code : Z) : M A :=
  fun st => (Exited code, {| config := config st; log := log st ++ [EvExit code] |}).

(** [os.Environ()]. *)
Definition Environ : M (list string) :=
  fun st => (Done (os_Environ W (log st)), st).

(** [restartCmd.Run] (restart.go, line 37).  The body of the [if] either
    returns an error from the command or falls through with the command
    line of the child, [daemonCmd]. *)
Definition restartCmd (req : Request) : M (option error) :=
  let daemonCmd := exec_Command (path_Excutable W) ["daemon"] in
  flag <- assert_bool req postPathModificationName ;;
  try daemonCmd <-
    (if flag && negb (String.eqb (path_StorePath W) "")
             && negb (String.eqb (path_OriginPath W) "") then
       err <- call (path_MoveFolder W) EvMoveFolder ;;
       match err with
       | Some err => ret (Err err)
       | None =>
           err <- call (path_WriteProperties W) EvWriteProperties ;;
           match err with
           | Some err => ret (Err err)
           | None =>
               environ <- Environ ;;
               ret (Ok {| Path := Path daemonCmd; Args := Args daemonCmd;
                          Env := Some (app environ ["BTFS_PATH=" ++ path_StorePath W]) |})
           end
       end
     else ret (Ok daemonCmd)) ;;
  check call (fun l => exec_Start W l daemonCmd) (EvStart daemonCmd) ;;
  os_Exit 0.

End Model.

Arguments Identity {Other} c.
Arguments UI {Other} c.
Arguments Config_other {Other} c.
Arguments PrivKey {Other} c.
Arguments Mnemonic {Other} c.
Arguments EncryptedPrivKey {Other} c.
Arguments EncryptedMnemonic {Other} c.
Arguments Identity_other {Other} c.
Arguments Wallet {Other} c.
Arguments UI_other {Other} c.
Arguments set_EncryptedMnemonic {Other} v cfg.
Arguments set_EncryptedPrivKey {Other} v cfg.
Arguments EvGetNode {Other} r.
Arguments EvRepoConfig {Other} r.
Arguments EvRepoSetConfig {Other} cfg r.
Arguments EvEncryptWithAES {Other} key message r.
Arguments EvDecryptWithAES {Other} key message r.
Arguments EvWalletDeposit {Other} amount runDaemon async r.
Arguments EvWalletWithdraw {Other} amount r.
Arguments EvTransferBTT {Other} to amount r.
Arguments EvLogError {Other} msg e.
Arguments EvEmitOnce {Other} v r.
Arguments EvMoveFolder {Other} r.
Arguments EvWriteProperties {Other} r.
Arguments EvStart {Other} c r.
Arguments EvExit {Other} code.
Arguments config {Other} s.
Arguments log {Other} s.
Arguments Error {Other} W e.
Arguments validatePassword {Other} W req _.
Arguments walletDepositCmd {Other} W req _.
Arguments walletWithdrawCmd {Other} W req _.
Arguments walletTransferCmd {Other} W req _.
Arguments walletPasswordCmd {Other} W req _.
Arguments walletCheckPasswordCmd {Other} W req _.
Arguments walletKeysCmd {Other} W req _.
Arguments restartCmd {Other} W req _.

(** The entries a command adds to the log when run from [st]. *)
Definition events_of {Other A} (c : M Other A) (st : State Other) : list (event Other) :=
  drop (length (log st)) (log (snd (c st))).

(** The calls to the external ledger and chain operations. *)
Definition is_delegate {Other} (ev : event Other) : bool :=
  match ev with
  | EvWalletDeposit _ _ _ _ | EvWalletWithdraw _ _ | EvTransferBTT _ _ _ => true
  | _ => false
  end.

(** The emissions of a command's result. *)
Definition is_emit {Other} (ev : event Other) : bool :=
  match ev with
  | EvEmitOnce _ _ => true
  | _ => false
  end.

(** The supplied password is not empty and decrypts the stored encrypted
    private key to the plaintext private key. *)
Definition password_ok {Other} (W : World Other) (req : Request) (st : State Other) : Prop :=
  option_string req passwordOptionName <> ""
  /\ wallet_DecryptWithAES _ W (option_string req passwordOptionName)
       (EncryptedPrivKey (Identity (config st)))
     = Ok (PrivKey (Identity (config st))).

(** The keys the key-retrieval command emits for a configuration
    (wallet.go, lines 327 to 338). *)
Definition keys_of {Other} (cfg : Config Other) : Keys :=
  if Initialized (Wallet (UI cfg)) then
    {| PrivateKey := EncryptedPrivKey (Identity cfg);
       Mnemonic_ := EncryptedMnemonic (Identity cfg) |}
  else
    {| PrivateKey := PrivKey (Identity cfg);
       Mnemonic_ := Mnemonic (Identity cfg) |}.

(** Whether the restart command relocates storage (restart.go, line 39). *)
Definition relocates {Other} (W : World Other) (flag : bool) : bool :=
  flag && negb (String.eqb (path_StorePath _ W) "")
       && negb (String.eqb (path_OriginPath _ W) "").

(** ** Concrete collaborators, to run the commands on examples *)

Module Example.

(** A stand-in for the AES functions of the wallet package, with what the
    password gate asks of them: decryption with the key of the encryption
    gives the message back, and a ciphertext made with another key is
    refused. *)
Definition seal (key message : string) : result string :=
  Ok (key ++ ":" ++ message).

Fixpoint unseal_prefix (key c : string) : option string :=
  match key, c with
  | EmptyString, String ":" m => Some m
  | String a key', String b c' =>
      if Ascii.eqb a b then unseal_prefix key' c' else None
  | _, _ => None
  end.

Definition unseal (key c : string) : result string :=
  match unseal_prefix key c with
  | Some m => Ok m
  | None => Err (foreignError "cipher: message authentication failed")
  end.

(** The answers the collaborators give in one scenario. *)
Record Scenario : Type := {
  deposit : option error;
  withdraw : option error;
  move : option error;
  write : option error;
  start : option error;
  StorePath : string;
  OriginPath : string;
}.

Definition world (s : Scenario) : World unit := {|
  cmdenv_GetNode := fun _ => Ok {| IsDaemon := true |};
  Repo_Config := fun _ => None;
  Repo_SetConfig := fun _ _ => None;
  wallet_EncryptWithAES := seal;
  wallet_DecryptWithAES := unseal;
  wallet_WalletDeposit := fun _ _ _ _ _ _ => deposit s;
  wallet_WalletWithdraw := fun _ _ _ _ => withdraw s;
  wallet_TransferBTT := fun _ _ _ _ _ => Ok {| TxId := "tx1"; ret_Result := true |};
  cmds_EmitOnce := fun _ _ => None;
  path_MoveFolder := fun _ => move s;
  path_WriteProperties := fun _ => write s;
  exec_Start := fun _ _ => start s;
  os_Environ := fun _ => ["HOME=/root"];
  strconv_Quote := fun s => String (ascii_of_nat 34) (s ++ String (ascii_of_nat 34) "");
  path_Excutable := "/usr/local/bin/btfs";
  path_StorePath := StorePath s;
  path_OriginPath := OriginPath s;
|}.

(** Every collaborator succeeds; storage moves from [/old] to [/new]. *)
Definition calm : Scenario := {|
  deposit := None; withdraw := None; move := None; write := None;
  start := None; StorePath := "/new"; OriginPath := "/old";
|}.

(** The deposit delegate refuses an amount below its minimum. *)
Definition small_deposit : Scenario := {|
  deposit := Some (foreignError "rpc error: Please deposit at least 10000000");
  withdraw := None; move := None; write := None;
  start := None; StorePath := "/new"; OriginPath := "/old";
|}.

(** The relocation fails. *)
Definition disk_full : Scenario := {|
  deposit := None; withdraw := None;
  move := Some (foreignError "rename /old /new: no space left on device");
  write := None; start := None; StorePath := "/new"; OriginPath := "/old";
|}.

(** No destination path is set. *)
Definition in_place : Scenario := {|
  deposit := None; withdraw := None; move := None; write := None;
  start := None; StorePath := ""; OriginPath := "/old";
|}.

(** A wallet whose password has not been set. *)
Definition fresh : State unit := {|
  config := {|
    Identity := {| PrivKey := "key"; Mnemonic := "words";
                   EncryptedPrivKey := ""; EncryptedMnemonic := "";
                   Identity_other := tt |};
    UI := {| Wallet := {| Initialized := false |}; UI_other := tt |};
    Config_other := tt |};
  log := [];
|}.

(** The same wallet after its keys were encrypted with password [pw]. *)
Definition locked (pw : string) : State unit := {|
  config := {|
    Identity := {| PrivKey := "key"; Mnemonic := "words";
                   EncryptedPrivKey := pw ++ ":key";
                   EncryptedMnemonic := pw ++ ":words";
                   Identity_other := tt |};
    UI := {| Wallet := {| Initialized := false |}; UI_other := tt |};
    Config_other := tt |};
  log := [];
|}.

Definition request (args : list string) (opts : list (string * OptValue)) : Request :=
  {| Arguments := args; Options := list_to_map opts |}.

End Example.

(** The calls that write: an encryption for storing, or the persisting of
    the configuration. *)
Definition is_write {Other} (ev : event Other) : bool :=
  match ev with
  | EvRepoSetConfig _ _ | EvEncryptWithAES _ _ _ => true
  | _ => false
  end.

(** The range of Go's [int64]. *)
Definition in_int64 (v : Z) : Prop := - 2 ^ 63 <= v < 2 ^ 63.

(** Collaborators like those of [Example.world Example.calm], but for the
    node lookup, the persisting of the configuration and the encryption,
    which are given. *)
Definition faulty_world
    (getNode : list (event unit) -> result Node)
    (setConfig : option error)
    (encrypt : string -> string -> result string) : World unit :=
  let base := Example.world Example.calm in {|
  cmdenv_GetNode := getNode;
  Repo_Config := Repo_Config _ base;
  Repo_SetConfig := fun _ _ => setConfig;
  wallet_EncryptWithAES := encrypt;
  wallet_DecryptWithAES := wallet_DecryptWithAES _ base;
  wallet_WalletDeposit := wallet_WalletDeposit _ base;
  wallet_WalletWithdraw := wallet_WalletWithdraw _ base;
  wallet_TransferBTT := wallet_TransferBTT _ base;
  cmds_EmitOnce := cmds_EmitOnce _ base;
  path_MoveFolder := path_MoveFolder _ base;
  path_WriteProperties := path_WriteProperties _ base;
  exec_Start := exec_Start _ base;
  os_Environ := os_Environ _ base;
  strconv_Quote := strconv_Quote _ base;
  path_Excutable := path_Excutable _ base;
  path_StorePath := path_StorePath _ base;
  path_OriginPath := path_OriginPath _ base;
|}.


(** ** The commands without password gate *)

(** The init, balance, transactions, import and discovery commands of
    wallet.go call other collaborators and emit other values than the
    commands above: they get their own log entries, in the same style. *)
Module Ungated.

Section Model.

Variable Other : Type.

(** [walletpb.TransactionV1], of which the commands read nothing. *)
Variable Tx : Type.

(** [BalanceResponse] (wallet.go, line 240); both fields are [uint64]. *)
Record BalanceResponse : Type := {
  BtfsWalletBalance : Z;
  BttWalletBalance : Z;
}.

(** [DiscoveryResult] (wallet.go, line 494). *)
Record DiscoveryResult : Type := {
  Key : string;
}.

Inductive Output : Type :=
| OutBalance (b : BalanceResponse)
| OutTransactions (txs : list Tx)
| OutDiscovery (d : DiscoveryResult).

(** One entry per call that leaves a command, with its answer.
    [CallInit] and [CallImportKeys] hold the configuration object as the
    callee left it: [wallet.Init] receives the pointer to it, and
    [wallet.ImportKeys] reaches it through the node.  [GoRestart] is the
    launch of the goroutine that runs the restart executable; what the
    goroutine does afterwards is not part of the command. *)
Inductive entry : Type :=
| CallGetNode (r : result Node)
| CallRepoConfig (r : option error)
| CallInit (cfg' : Config Other)
| CallGetBalance (r : result (Z * Z))
| LogError (msg : string) (e : error)
| LogInfo (msg : string)
| CallGetTransactions (r : result (list Tx))
| CallImportKeys (privKey mnemonic : string) (r : option error) (cfg' : Config Other)
| GoRestart
| CallDiscoverySpeedKey (r : result string)
| CallEmitOnce (v : Output) (r : option error).

(** The collaborators of these commands.  [wallet_GetBalance] answers
    with the pair (tron balance, ledger balance), both [int64]. *)
Record Services : Type := {
  cmdenv_GetNode : list entry -> result Node;
  Repo_Config : list entry -> option error;
  wallet_Init : list entry -> Config Other -> Config Other;
  wallet_GetBalance : list entry -> Config Other -> result (Z * Z);
  wallet_GetTransactions : list entry -> Node -> result (list Tx);
  wallet_ImportKeys :
    list entry -> Config Other -> Node -> string -> string ->
    option error * Config Other;
  wallet_DiscoverySpeedKey : list entry -> result string;
  cmds_EmitOnce : list entry -> Output -> option error;
}.

Record State : Type := {
  config : Config Other;
  log : list entry;
}.

Definition M (A : Type) : Type := State -> outcome A * State.

Definition ret {A} (a : A) : M A := fun st => (Done a, st).

Definition bind {A B} (c : M A) (k : A -> M B) : M B :=
  fun st =>
    match c st with
    | (Done a, st') => k a st'
    | (Panicked msg, st') => (Panicked msg, st')
    | (Exited code, st') => (Exited code, st')
    end.

Definition record (e : entry) : M unit :=
  fun st => (Done tt, {| config := config st; log := log st ++ [e] |}).

Definition call {A} (f : list entry -> A) (ev : A -> entry) : M A :=
  fun st =>
    let r := f (log st) in
    (Done r, {| config := config st; log := log st ++ [ev r] |}).

Definition load : M (Config Other) := fun st => (Done (config st), st).

Variable S : Services.

Notation "x <- c ;; k" := (bind c (fun x => k))
  (at level 62, c at next level, right associativity).

Notation "'try' x <- c ;; k" :=
  (bind c (fun r => match r with Err e => ret (Some e) | Ok x => k end))
  (at level 62, x name, c at next level, right associativity).

Definition GetNode : M (result Node) := call (cmdenv_GetNode S) CallGetNode.

Definition RepoConfig : M (result unit) :=
  r <- call (Repo_Config S) CallRepoConfig ;;
  ret (match r with Some e => Err e | None => Ok tt end).

Definition EmitOnce (v : Output) : M (option error) :=
  call (fun l => cmds_EmitOnce S l v) (CallEmitOnce v).

(** [wallet.Init(req.Context, cfg)]: no result; the object behind [cfg]
    is as the callee leaves it. *)
Definition Init : M unit :=
  fun st =>
    let cfg' := wallet_Init S (log st) (config st) in
    (Done tt, {| config := cfg'; log := log st ++ [CallInit cfg'] |}).

(** [wallet.ImportKeys(n, privKey, mnemonic)]. *)
Definition ImportKeys (n : Node) (privKey mnemonic : string) : M (option error) :=
  fun st =>
    let '(err, cfg') := wallet_ImportKeys S (log st) (config st) n privKey mnemonic in
    (Done err,
     {| config := cfg'; log := log st ++ [CallImportKeys privKey mnemonic err cfg'] |}).

(** [walletInitCmd.Run] (wallet.go, line 65). *)
Definition walletInitCmd (req : Request) : M (option error) :=
  try n <- GetNode ;;
  try _ <- RepoConfig ;;
  _ <- Init ;;
  ret None.

(** The conversion [uint64(v)] of an [int64]. *)
Definition uint64 (v : Z) : Z := v mod 2 ^ 64.

(** [fmt.Sprintf] of line 229, [%d] printing a signed decimal. *)
Definition balance_message (tronBalance ledgerBalance : Z) : string :=
  "BTFS wallet tron balance '" ++ pretty tronBalance
    ++ "', ledger balance '" ++ pretty ledgerBalance
    ++ String "'" (String (ascii_of_nat 10) "").

(** [walletBalanceCmd.Run] (wallet.go, line 214). *)
Definition walletBalanceCmd (req : Request) : M (option error) :=
  try n <- GetNode ;;
  try _ <- RepoConfig ;;
  cfg <- load ;;
  r <- call (fun l => wallet_GetBalance S l cfg) CallGetBalance ;;
  match r with
  | Err err =>
      _ <- record (LogError "wallet get balance failed, ERR: " err) ;;
      ret (Some err)
  | Ok (tronBalance, ledgerBalance) =>
      let s := balance_message tronBalance ledgerBalance in
      _ <- record (LogInfo s) ;;
      EmitOnce (OutBalance {| BtfsWalletBalance := uint64 ledgerBalance;
                              BttWalletBalance := uint64 tronBalance |})
  end.

(** [walletTransactionsCmd.Run] (wallet.go, line 356). *)
Definition walletTransactionsCmd (req : Request) : M (option error) :=
  try n <- GetNode ;;
  try txs <- call (fun l => wallet_GetTransactions S l n) CallGetTransactions ;;
  EmitOnce (OutTransactions txs).

Definition privateKeyOptionName : string := "privateKey".
Definition mnemonicOptionName : string := "mnemonic".

(** [walletImportCmd.Run] (wallet.go, line 443), up to the launch of the
    goroutine. *)
Definition walletImportCmd (req : Request) : M (option error) :=
  try n <- GetNode ;;
  let privKey := option_string req privateKeyOptionName in
  let mnemonic := option_string req mnemonicOptionName in
  err <- ImportKeys n privKey mnemonic ;;
  match err with
  | Some err => ret (Some err)
  | None =>
      _ <- record GoRestart ;;
      ret None
  end.

Definition errAlreadyInitDiscovery : error :=
  errors_New "Already init, cannot discovery.".

(** [walletDiscoveryCmd.Run] (wallet.go, line 474). *)
Definition walletDiscoveryCmd (req : Request) : M (option error) :=
  try n <- GetNode ;;
  try _ <- RepoConfig ;;
  cfg <- load ;;
  if Initialized (Wallet (UI cfg)) then ret (Some errAlreadyInitDiscovery)
  else
    try key <- call (wallet_DiscoverySpeedKey S) CallDiscoverySpeedKey ;;
    EmitOnce (OutDiscovery {| Key := key |}).

(** The entries a command adds to the log when run from [st]. *)
Definition events_of {A} (c : M A) (st : State) : list entry :=
  drop (length (log st)) (log (snd (c st))).

End Model.

Arguments CallGetNode {Other Tx} r.
Arguments CallRepoConfig {Other Tx} r.
Arguments CallInit {Other Tx} cfg'.
Arguments CallGetBalance {Other Tx} r.
Arguments LogError {Other Tx} msg e.
Arguments LogInfo {Other Tx} msg.
Arguments CallGetTransactions {Other Tx} r.
Arguments CallImportKeys {Other Tx} privKey mnemonic r cfg'.
Arguments GoRestart {Other Tx}.
Arguments CallDiscoverySpeedKey {Other Tx} r.
Arguments CallEmitOnce {Other Tx} v r.
Arguments OutBalance {Tx} b.
Arguments OutTransactions {Tx} txs.
Arguments OutDiscovery {Tx} d.
Arguments config {Other Tx} s.
Arguments log {Other Tx} s.
Arguments walletInitCmd {Other Tx} S req _.
Arguments walletBalanceCmd {Other Tx} S req _.
Arguments walletTransactionsCmd {Other Tx} S req _.
Arguments walletImportCmd {Other Tx} S req _.
Arguments walletDiscoveryCmd {Other Tx} S req _.
Arguments events_of {Other Tx A} c st.

(** Collaborators to run these commands on examples: the balance query
    answers [balance], the import answers [import], and everything else
    succeeds. *)
Definition services (balance : result (Z * Z)) (import : option error) : Services unit nat := {|
  cmdenv_GetNode := fun _ => Ok {| IsDaemon := true |};
  Repo_Config := fun _ => None;
  wallet_Init := fun _ cfg => cfg;
  wallet_GetBalance := fun _ _ => balance;
  wallet_GetTransactions := fun _ _ => Ok [1%nat; 2%nat];
  wallet_ImportKeys := fun _ cfg _ _ _ => (import, cfg);
  wallet_DiscoverySpeedKey := fun _ => Ok "speed";
  cmds_EmitOnce := fun _ _ => None;
|}.

Definition start_of (cfg : Config unit) : State unit nat :=
  {| config := cfg; log := [] |}.

End Ungated.

(** Unfold a command without gate down to the calls it makes. *)
Ltac unfold_ungated :=
  unfold Ungated.walletInitCmd, Ungated.walletBalanceCmd,
    Ungated.walletTransactionsCmd, Ungated.walletImportCmd,
    Ungated.walletDiscoveryCmd, Ungated.GetNode, Ungated.RepoConfig,
    Ungated.EmitOnce, Ungated.Init, Ungated.ImportKeys, Ungated.call,
    Ungated.record, Ungated.load, Ungated.bind, Ungated.ret in *.

Ltac next_ungated_call :=
  match goal with
  | |- context [match ?x with _ => _ end] =>
      lazymatch x with
      | context [match _ with _ => _ end] => fail
      | _ => destruct x eqn:?
      end
  | |- context [if ?x then _ else _] =>
      lazymatch x with
      | context [match _ with _ => _ end] => fail
      | context [if _ then _ else _] => fail
      | _ => destruct x eqn:?
      end
  end; cbn [fst snd Ungated.config Ungated.log] in *.

Ltac run_ungated :=
  unfold Ungated.events_of in *; unfold_ungated;
  cbn [fst snd Ungated.config Ungated.log] in *;
  repeat next_ungated_call;
  rewrite <- ?app_assoc; cbn [app];
  rewrite ?drop_app_length, ?drop_all.

(** ** Tactics to run a command symbolically *)

(** Unfold a command down to the calls it makes. *)
Ltac unfold_cmds :=
  unfold walletDepositCmd, walletWithdrawCmd, walletTransferCmd,
    walletPasswordCmd, walletCheckPasswordCmd, walletKeysCmd, restartCmd,
    validatePassword, GetNode, Repo_Config_, SetConfig, EncryptWithAES,
    DecryptWithAES, EmitOnce, Environ, os_Exit, assert_bool, index,
    call, record, load, store, bind, ret, panic in *.

(** Split on the answer of the next call: the first [match] whose
    scrutinee holds no other [match]. *)
Ltac next_call :=
  match goal with
  | |- context [match ?x with _ => _ end] =>
      lazymatch x with
      | context [match _ with _ => _ end] => fail
      | _ => destruct x eqn:?
      end
  | |- context [if ?x then _ else _] =>
      lazymatch x with
      | context [match _ with _ => _ end] => fail
      | context [if _ then _ else _] => fail
      | _ => destruct x eqn:?
      end
  end; cbn [fst snd config log] in *.

(** Bring the log of a finished run to the form [log st ++ t]. *)
Ltac tidy_log :=
  rewrite <- ?app_assoc; cbn [app];
  rewrite ?drop_app_length, ?drop_all.

Ltac run :=
  unfold events_of in *; unfold_cmds; cbn [fst snd config log] in *;
  repeat next_call; tidy_log.

(** * Properties *)

(** ** Strings *)

Lemma HasPrefix_app (p s : string) : HasPrefix (p ++ s) p = true.
Proof.
  induction p as [|a p IH]; simpl.
  - by destruct s.
  - by rewrite Ascii.eqb_refl, IH.
Qed.

Lemma HasPrefix_spec (s p : string) :
  HasPrefix s p = true <-> exists t, s = p ++ t.
Proof.
  split.
  - revert s. induction p as [|b p IH]; intros s H; simpl in *.
    + by exists s.
    + destruct s as [|a s]; [done|].
      apply andb_true_iff in H as [Hab H]. apply Ascii.eqb_eq in Hab as ->.
      destruct (IH _ H) as [t ->]. by exists t.
  - intros [t ->]. apply HasPrefix_app.
Qed.

(** [Contains s sub] holds exactly when [sub] occurs inside [s]. *)
Lemma Contains_spec (s sub : string) :
  Contains s sub = true <-> exists a b, s = a ++ sub ++ b.
Proof.
  split.
  - induction s as [|c s IH]; intros H.
    + destruct sub; [|done]. by exists "", "".
    + cbn [Contains] in H. apply orb_true_iff in H as [H|H].
      * apply HasPrefix_spec in H as [t Ht]. by exists "", t.
      * destruct (IH H) as (a & b & ->). by exists (String c a), b.
  - intros (a & b & ->). induction a as [|c a IH].
    + change ("" ++ sub ++ b) with (sub ++ b).
      destruct (sub ++ b) eqn:E; cbn [Contains]; rewrite <- E, HasPrefix_app; done.
    + change (String c a ++ sub ++ b) with (String c (a ++ sub ++ b)).
      cbn [Contains]. rewrite IH. apply orb_true_r.
Qed.

(** ** Parsing amounts *)

Lemma ParseUint_loop_error (s : string) (n : Z) (e : error) :
  ParseUint_loop s n = Err e -> e = ErrSyntax \/ e = ErrRange.
Proof.
  revert n. induction s as [|c s IH]; intros n; cbn [ParseUint_loop]; [done|].
  destruct (digit c) as [d|]; [|intros [= <-]; by left].
  destruct (_ <=? n); [intros [= <-]; by right|].
  cbv zeta. destruct (_ || _); [intros [= <-]; by right|]. apply IH.
Qed.

(** Every error of [ParseInt] is a [NumError] of function [ParseInt] on the
    text as given, for a syntax or a range error. *)
Lemma ParseInt_error (s : string) (e : error) :
  ParseInt s = Err e ->
  e = NumError "ParseInt" s ErrSyntax \/ e = NumError "ParseInt" s ErrRange.
Proof.
  unfold ParseInt. destruct s as [|c rest]; [intros [= <-]; by left|].
  set (s0 := String c rest). cbv zeta.
  match goal with |- context [ParseUint ?x] => generalize x end. intros s.
  assert (Hu : forall un e', ParseUint s = (un, Some e') -> e' = ErrSyntax \/ e' = ErrRange).
  { unfold ParseUint. intros un e'. destruct s as [|c' s']; [intros [= _ <-]; by left|].
    destruct (ParseUint_loop _ _) as [v|e''] eqn:Hl; intros [= _ <-].
    by eapply ParseUint_loop_error. }
  destruct (ParseUint s) as [un [e'|]] eqn:Hp.
  - destruct (Hu _ _ eq_refl) as [->| ->]; repeat case_match;
      intros [= <-] || intros [=]; auto.
  - repeat case_match; intros [= <-] || intros [=]; auto.
Qed.

Example ParseInt_decimal : ParseInt "10000000" = Ok 10000000.
Proof. reflexivity. Qed.

Example ParseInt_min : ParseInt "-9223372036854775808" = Ok (- 2 ^ 63).
Proof. reflexivity. Qed.

Example ParseInt_overflow :
  ParseInt "9223372036854775808"
  = Err (NumError "ParseInt" "9223372036854775808" ErrRange).
Proof. reflexivity. Qed.

Example ParseInt_not_a_number :
  ParseInt "1e6" = Err (NumError "ParseInt" "1e6" ErrSyntax).
Proof. reflexivity. Qed.

(** ** The password gate *)

Section Properties.

Context {Other : Type} (W : World Other).

Implicit Types (req : Request) (st : State Other) (e : error).

(** C5: with an empty supplied password the gate fails with the
    missing-password error, whose text hints at setting a password first,
    whatever the stored ciphertext and the reference key are; it calls no
    collaborator (no decryption is attempted) and leaves the state as it
    was. *)
Theorem validatePassword_missing req st :
  option_string req passwordOptionName = "" ->
  validatePassword W req st = (Done (Some errMissingPassword), st)
  /\ events_of (validatePassword W req) st = []
  /\ Contains (Error W errMissingPassword)
       "Try 'btfs wallet password --help' and assign a password" = true.
Proof.
  intros Hpw. unfold events_of, validatePassword. rewrite Hpw. simpl.
  split_and!; [done| |done]. by rewrite drop_all.
Qed.

(** What the gate answers for a non-empty password: it decrypts the stored
    encrypted key once and compares the result with the plaintext key. *)
Lemma validatePassword_run req st :
  option_string req passwordOptionName <> "" ->
  let pw := option_string req passwordOptionName in
  let c := EncryptedPrivKey (Identity (config st)) in
  let r := wallet_DecryptWithAES _ W pw c in
  validatePassword W req st =
    (Done (if decide (r = Ok (PrivKey (Identity (config st)))) then None
           else Some errIncorrectPassword),
     {| config := config st; log := log st ++ [EvDecryptWithAES pw c r] |}).
Proof.
  intros Hpw. unfold validatePassword.
  destruct (String.eqb_spec (option_string req passwordOptionName) "") as [|_]; [done|].
  unfold bind, load, DecryptWithAES, call, ret. simpl.
  destruct (wallet_DecryptWithAES _ _ _ _) as [privK|e].
  - destruct (String.eqb_spec (PrivKey (Identity (config st))) privK) as [->|Hne];
      simpl; case_decide; simplify_eq; done.
  - case_decide; simplify_eq; done.
Qed.


End Properties.

Section Commands.

Context {Other : Type} (W : World Other).

Implicit Types (req : Request) (st : State Other) (e : error).

(** A command only appends to the log: [events_of] is what it added. *)
Lemma commands_extend_log cmd req st :
  In cmd [walletDepositCmd W; walletWithdrawCmd W; walletTransferCmd W;
          walletPasswordCmd W; walletCheckPasswordCmd W; walletKeysCmd W;
          restartCmd W] ->
  log (snd (cmd req st)) = app (log st) (events_of (cmd req) st).
Proof.
  cbn [In]. intros H.
  repeat (destruct H as [<-|H]; [run; by rewrite ?app_nil_r|]). done.
Qed.

(** ** Threshold errors of the delegates *)

(** C6: when the deposit delegate answered with an error whose text
    contains [Please deposit at least], the deposit command returns the
    fixed text citing the minimum, and likewise for withdraw with
    [Please withdraw at least]; any other error of these delegates is
    returned as it is. *)
Theorem threshold_errors_rewritten req st :
  (forall amount d a e,
     In (EvWalletDeposit amount d a (Some e)) (events_of (walletDepositCmd W req) st) ->
     fst (walletDepositCmd W req st) =
       Done (Some (if Contains (Error W e) "Please deposit at least"
                   then errDepositThreshold else e)))
  /\ (forall amount e,
     In (EvWalletWithdraw amount (Some e)) (events_of (walletWithdrawCmd W req) st) ->
     fst (walletWithdrawCmd W req st) =
       Done (Some (if Contains (Error W e) "Please withdraw at least"
                   then errWithdrawThreshold else e)))
  /\ Error W errDepositThreshold = "Please deposit at least 10,000,000µBTT(=10BTT)"
  /\ Error W errWithdrawThreshold = "Please withdraw at least 1,000,000,000µBTT(=1000BTT)".
Proof.
  split_and!; [| |done|done].
  - intros amount d a e. run; cbn [In]; intros H;
      intuition (simplify_eq; try done; congruence).
  - intros amount e. run; cbn [In]; intros H;
      intuition (simplify_eq; try done; congruence).
Qed.

(** ** The gate in the commands *)

(** C1, amended: deposit, withdraw, transfer and password-check call a
    delegate or emit a result only when the supplied password is non-empty
    and decrypts the stored encrypted key to the plaintext key.  The
    key-retrieval command does not call the gate: it never decrypts, and
    once the node and its configuration are found it emits the keys for
    any request, the plaintext ones while the wallet is not initialized
    and the encrypted ones once it is. *)
Theorem keys_not_gated req st :
  (forall cmd,
     In cmd [walletDepositCmd W; walletWithdrawCmd W; walletTransferCmd W;
             walletCheckPasswordCmd W] ->
     forall ev, In ev (events_of (cmd req) st) ->
       is_delegate ev || is_emit ev = true -> password_ok W req st)
  /\ (forall key c r,
        ~ In (EvDecryptWithAES key c r) (events_of (walletKeysCmd W req) st))
  /\ (In (EvRepoConfig None) (events_of (walletKeysCmd W req) st) ->
      exists n r,
        walletKeysCmd W req st =
          (Done r,
           {| config := config st;
              log := log st ++ [EvGetNode (Ok n); EvRepoConfig None;
                                EvEmitOnce (OutKeys (keys_of (config st))) r] |})).
Proof.
  split_and!.
  - intros cmd Hcmd ev. unfold password_ok. cbn [In] in Hcmd.
    destruct Hcmd as [<-|[<-|[<-|[<-|[]]]]]; run; cbn [In]; intros Hev Hk;
      repeat (destruct Hev as [<-|Hev]; try done); try done;
      (split;
       [by apply String.eqb_neq
       |by match goal with
           | H : negb _ = false |- _ =>
               apply negb_false_iff, String.eqb_eq in H as <-
           end]).
  - intros key c r. run; cbn [In]; intros H;
      repeat (destruct H as [H|H]; try done).
  - unfold keys_of. run; cbn [In]; intros H;
      repeat (destruct H as [H|H]; try done); eauto.
Qed.

(** C2, amended: when the amount argument of deposit, withdraw or
    transfer is not a parseable integer, the command calls no delegate,
    emits nothing and returns an error.  The gate comes before the
    parsing: once node and configuration are found, a password that passes
    the gate gives the parse error of [strconv.ParseInt], and a password
    that does not gives the error of the gate. *)
Theorem bad_amount_rejected cmd (i : nat) req st (s : string) e :
  In (cmd, i) [(walletDepositCmd W, 0%nat); (walletWithdrawCmd W, 0%nat);
               (walletTransferCmd W, 1%nat)] ->
  nth_error (Arguments req) i = Some s ->
  ParseInt s = Err e ->
  let t := events_of (cmd req) st in
  let o := fst (cmd req st) in
  (forall ev, In ev t -> is_delegate ev = false /\ is_emit ev = false)
  /\ (exists e', o = Done (Some e'))
  /\ (In (EvRepoConfig None) t -> password_ok W req st -> o = Done (Some e))
  /\ (In (EvRepoConfig None) t -> ~ password_ok W req st ->
      o = Done (Some (if decide (option_string req passwordOptionName = "")
                      then errMissingPassword else errIncorrectPassword)))
  /\ (e = NumError "ParseInt" s ErrSyntax \/ e = NumError "ParseInt" s ErrRange).
Proof.
  intros Hcmd Hs He t o. subst t o. unfold password_ok. cbn [In] in Hcmd.
  split_and!; [| | | |by apply ParseInt_error].
  all: destruct Hcmd as [[= <- <-]|[[= <- <-]|[[= <- <-]|[]]]].
  all: unfold events_of; unfold_cmds; rewrite Hs; cbn beta iota; rewrite He.
  all: run; cbn [In].
  all: try (intros ev Hev; repeat (destruct Hev as [<-|Hev]; try done); done).
  all: eauto.
  all: intros Hc Hpw; repeat (destruct Hc as [Hc|Hc]; try done).
  all: try (destruct Hpw as [Hne Hd]).
  all: repeat match goal with
       | H : String.eqb _ _ = true |- _ => apply String.eqb_eq in H
       | H : String.eqb _ _ = false |- _ => apply String.eqb_neq in H
       | H : negb _ = true |- _ => apply negb_true_iff in H
       | H : negb _ = false |- _ => apply negb_false_iff in H
       end.
  all: try case_decide; try done; try congruence.
  all: exfalso; apply Hpw; split; [done|congruence].
Qed.

(** ** Setting the password *)

(** Whatever happens, the password-set command leaves every field of the
    configuration but the two encrypted ones as it found them. *)
Lemma walletPasswordCmd_frame req st :
  let cfg := config st in
  let cfg' := config (snd (walletPasswordCmd W req st)) in
  UI cfg' = UI cfg
  /\ PrivKey (Identity cfg') = PrivKey (Identity cfg)
  /\ Mnemonic (Identity cfg') = Mnemonic (Identity cfg)
  /\ Identity_other (Identity cfg') = Identity_other (Identity cfg)
  /\ Config_other cfg' = Config_other cfg.
Proof. cbv zeta. run; done. Qed.

(** C10: a successful password-set leaves a configuration that differs
    from the one it found in [EncryptedMnemonic] and [EncryptedPrivKey]
    only, which hold the mnemonic and the private key encrypted with the
    password given; that configuration is the one handed to [SetConfig].
    [Initialized], the plaintext [PrivKey] and [Mnemonic] and all other
    fields are unchanged. *)
Theorem password_set_frame req st :
  fst (walletPasswordCmd W req st) = Done None ->
  let cfg := config st in
  let cfg' := config (snd (walletPasswordCmd W req st)) in
  (exists pw cm cp,
     nth_error (Arguments req) 0 = Some pw
     /\ wallet_EncryptWithAES _ W pw (Mnemonic (Identity cfg)) = Ok cm
     /\ wallet_EncryptWithAES _ W pw (PrivKey (Identity cfg)) = Ok cp
     /\ cfg' = set_EncryptedPrivKey cp (set_EncryptedMnemonic cm cfg))
  /\ In (EvRepoSetConfig cfg' None) (events_of (walletPasswordCmd W req) st)
  /\ Initialized (Wallet (UI cfg')) = Initialized (Wallet (UI cfg))
  /\ UI cfg' = UI cfg
  /\ PrivKey (Identity cfg') = PrivKey (Identity cfg)
  /\ Mnemonic (Identity cfg') = Mnemonic (Identity cfg)
  /\ Identity_other (Identity cfg') = Identity_other (Identity cfg)
  /\ Config_other cfg' = Config_other cfg.
Proof.
  intros Hok cfg cfg'.
  destruct (walletPasswordCmd_frame req st) as (HUI & HP & HM & HI & HC).
  fold cfg cfg' in HUI, HP, HM, HI, HC.
  split_and!; try done; [| |by rewrite HUI]; subst cfg cfg'; revert Hok.
  - run; intros [=]; simplify_eq. eauto 10.
  - run; intros [=]; simplify_eq. cbn [In]. tauto.
Qed.

(** C3, amended: the password-set command is refused with the
    already-initialized error, writing nothing, when it finds the
    [Initialized] flag true.  It never changes that flag itself.  So after
    a successful password-set the flag is still false, and a repeat
    invocation is not refused: it goes on to encrypt under the new
    password. *)
Theorem set_password_guard req st :
  let t := events_of (walletPasswordCmd W req) st in
  let st' := snd (walletPasswordCmd W req st) in
  (In (EvRepoConfig None) t ->
   Initialized (Wallet (UI (config st))) = true ->
   fst (walletPasswordCmd W req st) = Done (Some errAlreadyInit)
   /\ config st' = config st
   /\ exists n, t = [EvGetNode (Ok n); EvRepoConfig None])
  /\ Initialized (Wallet (UI (config st'))) = Initialized (Wallet (UI (config st)))
  /\ (fst (walletPasswordCmd W req st) = Done None ->
      Initialized (Wallet (UI (config st'))) = false
      /\ forall req2 pw2,
          nth_error (Arguments req2) 0 = Some pw2 ->
          In (EvRepoConfig None) (events_of (walletPasswordCmd W req2) st') ->
          exists r,
            In (EvEncryptWithAES pw2 (Mnemonic (Identity (config st))) r)
               (events_of (walletPasswordCmd W req2) st')).
Proof.
  intros t st'. subst t st'.
  destruct (walletPasswordCmd_frame req st) as (HUI & _ & Hm & _).
  cbv zeta in HUI, Hm.
  split_and!; [|by rewrite HUI|].
  - run; cbn [In]; intros Hc Hi;
      repeat (destruct Hc as [Hc|Hc]; try done); try congruence; eauto.
  - intros Hok.
    assert (Hfalse : Initialized (Wallet (UI (config st))) = false).
    { revert Hok. clear. run; intros [=]; done. }
    rewrite <- HUI in Hfalse. split; [done|].
    intros req2 pw2 Hpw2. rewrite <- Hm.
    remember (snd (walletPasswordCmd W req st)) as st' eqn:Hst'.
    clear Hst' Hok HUI Hm.
    run; cbn [In]; intros Hc; repeat (destruct Hc as [Hc|Hc]; try done);
      try congruence; simplify_eq; eauto 10.
Qed.

(** ** Restart *)

Lemma relocates_iff (flag : bool) :
  relocates W flag = true
  <-> flag = true /\ path_StorePath _ W <> "" /\ path_OriginPath _ W <> "".
Proof.
  unfold relocates. rewrite !andb_true_iff, !negb_true_iff, !String.eqb_neq.
  tauto.
Qed.

(** C7: the restart command calls the relocation exactly when the
    post-path-modification flag is set and both the destination and the
    origin path are non-empty.  In every other case neither the relocation
    nor the property-write is called: the only call is the spawn of the
    daemon with no environment of its own (so without any [BTFS_PATH]
    override), followed by the exit when the spawn succeeded. *)
Theorem restart_relocates_iff req st (flag : bool) :
  Options req !! postPathModificationName = Some (VBool flag) ->
  let t := events_of (restartCmd W req) st in
  ((exists r, In (EvMoveFolder r) t) <-> relocates W flag = true)
  /\ (relocates W flag = true
      <-> flag = true /\ path_StorePath _ W <> "" /\ path_OriginPath _ W <> "")
  /\ (relocates W flag = false ->
      (forall r, ~ In (EvMoveFolder r) t /\ ~ In (EvWriteProperties r) t)
      /\ exists r,
          t = EvStart {| Path := path_Excutable _ W;
                         Args := [path_Excutable _ W; "daemon"];
                         Env := None |} r
              :: match r with None => [EvExit 0] | Some _ => [] end).
Proof.
  intros Hflag t. subst t. split_and!; [|apply relocates_iff|].
  - unfold events_of, relocates; unfold_cmds; rewrite Hflag; cbn beta iota.
    split.
    + intros [r Hr]. revert Hr.
      run; cbn [In]; intros Hr; repeat (destruct Hr as [Hr|Hr]; try done).
    + intros Hrel. rewrite Hrel. run; cbn [In]; eauto.
  - intros Hrel. unfold events_of; unfold_cmds; rewrite Hflag; cbn beta iota.
    unfold relocates in Hrel. rewrite Hrel. unfold exec_Command.
    run; (split; [intros r; cbn [In]; intuition congruence|]).
    + by exists (Some e).
    + by exists None.
Qed.

(** C8: when the restart relocates, the calls come in this order:
    relocation, property-write, spawn of the daemon with the environment
    of the process extended by [BTFS_PATH=] and the destination path, and
    the exit with code 0.  The sequence stops at the first call that
    fails, whose error the command returns; the process exits only after
    a spawn that succeeded. *)
Theorem restart_order req st (flag : bool) :
  Options req !! postPathModificationName = Some (VBool flag) ->
  relocates W flag = true ->
  let t := events_of (restartCmd W req) st in
  let o := fst (restartCmd W req st) in
  let c := {| Path := path_Excutable _ W;
              Args := [path_Excutable _ W; "daemon"];
              Env := Some (app (os_Environ _ W
                                  (log st ++ [EvMoveFolder None; EvWriteProperties None]))
                               ["BTFS_PATH=" ++ path_StorePath _ W]) |} in
  (exists e, t = [EvMoveFolder (Some e)] /\ o = Done (Some e))
  \/ (exists e, t = [EvMoveFolder None; EvWriteProperties (Some e)]
                /\ o = Done (Some e))
  \/ (exists e, t = [EvMoveFolder None; EvWriteProperties None; EvStart c (Some e)]
                /\ o = Done (Some e))
  \/ (t = [EvMoveFolder None; EvWriteProperties None; EvStart c None; EvExit 0]
      /\ o = Exited 0).
Proof.
  intros Hflag Hrel t o c. subst t o c.
  unfold events_of; unfold_cmds; rewrite Hflag; cbn beta iota.
  unfold relocates in Hrel. rewrite Hrel. unfold exec_Command.
  run; cbn [Path Args]; rewrite <- ?app_assoc; cbn [app]; eauto 10.
Qed.

(** C9: if the relocation or the property-write fails, the restart
    command returns that error and never calls the spawn; if the spawn
    fails, the command returns the spawn error and the process does not
    exit. *)
Theorem restart_failures req st :
  let t := events_of (restartCmd W req) st in
  let o := fst (restartCmd W req st) in
  (forall e,
     In (EvMoveFolder (Some e)) t \/ In (EvWriteProperties (Some e)) t ->
     o = Done (Some e) /\ forall c r, ~ In (EvStart c r) t)
  /\ (forall c e,
     In (EvStart c (Some e)) t ->
     o = Done (Some e)
     /\ forall code, ~ In (EvExit code) t /\ o <> Exited code).
Proof.
  intros t o. subst t o. split.
  - intros e. run; cbn [In]; intros [H|H];
      repeat (destruct H as [H|H]; try done); simplify_eq;
      (split; [done|intros c r; cbn [In]; intuition congruence]).
  - intros c e. run; cbn [In]; intros H;
      repeat (destruct H as [H|H]; try done); simplify_eq;
      (split; [done|intros code; cbn [In]; split; [intuition congruence|done]]).
Qed.

End Commands.

(** * The properties on concrete runs *)

Import Example.

Lemma unseal_prefix_seal (key message : string) :
  unseal_prefix key (key ++ ":" ++ message) = Some message.
Proof.
  induction key as [|a key IH]; [done|].
  change (String a key ++ ":" ++ message) with (String a (key ++ ":" ++ message)).
  cbn [unseal_prefix]. by rewrite Ascii.eqb_refl.
Qed.

(** The stand-in cipher decrypts what it encrypted. *)
Lemma unseal_seal (key message c : string) :
  seal key message = Ok c -> unseal key c = Ok message.
Proof. intros [= <-]. unfold unseal. by rewrite unseal_prefix_seal. Qed.

(** C1 fails as stated: on a wallet without password, the key-retrieval
    command, given no password at all, returns without error and emits the
    plaintext private key and mnemonic. *)
Lemma keys_emitted_without_password :
  let req := request [] [] in
  option_string req passwordOptionName = ""
  /\ walletKeysCmd (world calm) req fresh =
     (Done None,
      {| config := config fresh;
         log := [EvGetNode (Ok {| IsDaemon := true |});
                 EvRepoConfig None;
                 EvEmitOnce (OutKeys {| PrivateKey := "key"; Mnemonic_ := "words" |})
                            None] |}).
Proof. split; reflexivity. Qed.

Lemma keys_not_gated_witness :
  exists n r,
    walletKeysCmd (world calm) (request [] []) fresh =
      (Done r,
       {| config := config fresh;
          log := log fresh ++ [EvGetNode (Ok n); EvRepoConfig None;
                               EvEmitOnce (OutKeys (keys_of (config fresh))) r] |}).
Proof.
  apply (keys_not_gated (world calm) (request [] []) fresh).
  vm_compute. auto.
Defined.

(** C2 fails as stated: the amount [abc] is not an integer, yet a deposit
    without password fails with the missing-password error of the gate,
    not with the parse error; and with the right password the log shows
    the decryption of the gate before the parse error is returned. *)
Lemma gate_runs_before_amount_parse :
  ParseInt "abc" = Err (NumError "ParseInt" "abc" ErrSyntax)
  /\ fst (walletDepositCmd (world calm) (request ["abc"] []) (locked "pw"))
     = Done (Some errMissingPassword)
  /\ walletDepositCmd (world calm)
       (request ["abc"] [("password", VString "pw")]) (locked "pw")
     = (Done (Some (NumError "ParseInt" "abc" ErrSyntax)),
        {| config := config (locked "pw");
           log := [EvGetNode (Ok {| IsDaemon := true |});
                   EvRepoConfig None;
                   EvDecryptWithAES "pw" "pw:key" (Ok "key")] |}).
Proof. split_and!; by vm_compute. Qed.

Lemma bad_amount_rejected_witness :
  let req := request ["abc"] [("password", VString "pw")] in
  fst (walletDepositCmd (world calm) req (locked "pw"))
  = Done (Some (NumError "ParseInt" "abc" ErrSyntax)).
Proof.
  intros req.
  apply (bad_amount_rejected (world calm) (walletDepositCmd (world calm)) 0
           req (locked "pw") "abc" (NumError "ParseInt" "abc" ErrSyntax)).
  - left; reflexivity.
  - reflexivity.
  - reflexivity.
  - vm_compute. auto.
  - split; [by vm_compute|by vm_compute].
Defined.

(** C3 fails as stated: on a wallet that is not initialized the password
    is set twice in a row.  The first call succeeds and leaves
    [Initialized] false; the second call succeeds too and overwrites the
    encrypted private key. *)
Lemma password_set_twice :
  let run1 := walletPasswordCmd (world calm) (request ["one"] []) fresh in
  let run2 := walletPasswordCmd (world calm) (request ["two"] []) (snd run1) in
  fst run1 = Done None
  /\ Initialized (Wallet (UI (config (snd run1)))) = false
  /\ EncryptedPrivKey (Identity (config (snd run1))) = "one:key"
  /\ fst run2 = Done None
  /\ EncryptedPrivKey (Identity (config (snd run2))) = "two:key".
Proof. split_and!; by vm_compute. Qed.

Lemma set_password_guard_witness :
  let st' := snd (walletPasswordCmd (world calm) (request ["one"] []) fresh) in
  Initialized (Wallet (UI (config st'))) = false
  /\ exists r,
      In (EvEncryptWithAES "two" "words" r)
         (events_of (walletPasswordCmd (world calm) (request ["two"] [])) st').
Proof.
  intros st'.
  destruct (set_password_guard (world calm) (request ["one"] []) fresh)
    as (_ & _ & H).
  destruct H as [Hflag Hnext]; [by vm_compute|].
  split; [exact Hflag|].
  apply (Hnext (request ["two"] []) "two"); [reflexivity|].
  vm_compute. auto.
Defined.



Lemma validatePassword_missing_witness :
  validatePassword (world calm) (request [] []) (locked "pw")
  = (Done (Some errMissingPassword), locked "pw").
Proof.
  apply (validatePassword_missing (world calm) (request [] []) (locked "pw")).
  reflexivity.
Defined.

Lemma threshold_errors_rewritten_witness :
  let req := request ["5"] [("password", VString "pw")] in
  fst (walletDepositCmd (world small_deposit) req (locked "pw"))
  = Done (Some errDepositThreshold).
Proof.
  intros req.
  apply (proj1 (threshold_errors_rewritten (world small_deposit) req (locked "pw"))
           5 true false
           (foreignError "rpc error: Please deposit at least 10000000")).
  vm_compute. auto 10.
Defined.

Lemma password_set_frame_witness :
  let st' := snd (walletPasswordCmd (world calm) (request ["pw"] []) fresh) in
  In (EvRepoSetConfig (config st') None)
     (events_of (walletPasswordCmd (world calm) (request ["pw"] [])) fresh)
  /\ Initialized (Wallet (UI (config st'))) = false.
Proof.
  intros st'.
  destruct (password_set_frame (world calm) (request ["pw"] []) fresh)
    as (_ & Hset & Hflag & _); [by vm_compute|].
  split; [exact Hset|exact Hflag].
Defined.

Lemma restart_relocates_iff_witness :
  let req := request [] [(postPathModificationName, VBool true)] in
  exists r,
    events_of (restartCmd (world in_place) req) fresh
    = EvStart {| Path := "/usr/local/bin/btfs";
                 Args := ["/usr/local/bin/btfs"; "daemon"];
                 Env := None |} r
      :: match r with None => [EvExit 0] | Some _ => [] end.
Proof.
  intros req.
  assert (Hflag : Options req !! postPathModificationName = Some (VBool true))
    by (by vm_compute).
  destruct (restart_relocates_iff (world in_place) req fresh true Hflag)
    as (_ & _ & H).
  apply H. reflexivity.
Defined.

Lemma restart_order_witness :
  let req := request [] [(postPathModificationName, VBool true)] in
  events_of (restartCmd (world calm) req) fresh
  = [EvMoveFolder None; EvWriteProperties None;
     EvStart {| Path := "/usr/local/bin/btfs";
                Args := ["/usr/local/bin/btfs"; "daemon"];
                Env := Some ["HOME=/root"; "BTFS_PATH=/new"] |} None;
     EvExit 0]
  /\ fst (restartCmd (world calm) req fresh) = Exited 0.
Proof.
  intros req.
  assert (Hflag : Options req !! postPathModificationName = Some (VBool true))
    by (by vm_compute).
  assert (Hrel : relocates (world calm) true = true) by reflexivity.
  destruct (restart_order (world calm) req fresh true Hflag Hrel)
    as [(e & Ht & _)|[(e & Ht & _)|[(e & Ht & _)|H]]];
    [vm_compute in Ht; discriminate Ht ..|exact H].
Defined.

Lemma restart_failures_witness :
  let req := request [] [(postPathModificationName, VBool true)] in
  fst (restartCmd (world disk_full) req fresh)
  = Done (Some (foreignError "rename /old /new: no space left on device"))
  /\ forall c r, ~ In (EvStart c r) (events_of (restartCmd (world disk_full) req) fresh).
Proof.
  intros req.
  apply (proj1 (restart_failures (world disk_full) req fresh)).
  left. vm_compute. auto.
Defined.

(** * Further properties of the commands *)

Lemma ParseUint_loop_nonneg (s : string) (n v : Z) :
  0 <= n -> ParseUint_loop s n = Ok v -> 0 <= v.
Proof.
  revert n. induction s as [|c s IH]; intros n Hn; cbn [ParseUint_loop].
  - by intros [= <-].
  - destruct (digit c) as [d|]; [|done].
    destruct (_ <=? n); [done|]. cbv zeta.
    destruct (_ || _); [done|]. apply IH. by apply Z.mod_pos_bound.
Qed.

Lemma ParseUint_nonneg (s : string) (un : Z) (err : option error) :
  ParseUint s = (un, err) -> 0 <= un.
Proof.
  unfold ParseUint. destruct s as [|c s]; [by intros [= <- _]|].
  destruct (ParseUint_loop _ _) as [v|e] eqn:Hl.
  - intros [= <- _]. by eapply ParseUint_loop_nonneg.
  - case_decide; intros [= <- _]; done.
Qed.

(** A value [ParseInt] returns fits in [int64]. *)
Lemma ParseInt_in_int64 (s : string) (v : Z) :
  ParseInt s = Ok v -> in_int64 v.
Proof.
  unfold ParseInt, in_int64. destruct s as [|c rest]; [done|].
  cbv zeta. match goal with |- context [ParseUint ?x] => generalize x end.
  intros s. destruct (ParseUint s) as [un err] eqn:Hp.
  apply ParseUint_nonneg in Hp.
  assert (Hin : forall neg : bool,
    (if negb neg && (2 ^ 63 <=? un)
     then Err (NumError "ParseInt" (String c rest) ErrRange)
     else if neg && (2 ^ 63 <? un)
          then Err (NumError "ParseInt" (String c rest) ErrRange)
          else Ok (if neg then - un else un)) = Ok v ->
    - 2 ^ 63 <= v < 2 ^ 63).
  { intros [|]; cbn [negb andb].
    - destruct (Z.ltb_spec (2 ^ 63) un); intros [= <-]; lia.
    - destruct (Z.leb_spec (2 ^ 63) un); intros [= <-]; lia. }
  destruct err as [e|]; [case_decide; [|done]|]; apply Hin.
Qed.

Section More.

Context {Other : Type} (W : World Other).

Implicit Types (req : Request) (st : State Other) (e : error).

(** X1: the gate and the commands for deposit, withdraw, transfer,
    password-check, key retrieval and restart leave the configuration as
    they found it: they never encrypt and never call [SetConfig]. *)
Theorem commands_leave_config cmd req st :
  In cmd [validatePassword W; walletDepositCmd W; walletWithdrawCmd W;
          walletTransferCmd W; walletCheckPasswordCmd W; walletKeysCmd W;
          restartCmd W] ->
  config (snd (cmd req st)) = config st
  /\ forall ev, In ev (events_of (cmd req) st) -> is_write ev = false.
Proof.
  cbn [In]. intros H.
  repeat (destruct H as [<-|H];
    [run; (split; [done|]); intros ev Hev; cbn [In] in Hev;
     repeat (destruct Hev as [<-|Hev]; try done); done|]).
  done.
Qed.

(** X2: the password-set command writes all or nothing.  When the
    encryption of the mnemonic or of the private key fails, the command
    returns that error, the configuration is as it was found and
    [SetConfig] is not called.  [SetConfig] is only ever called with the
    configuration holding both new ciphertexts. *)
Theorem password_set_all_or_nothing req st :
  let t := events_of (walletPasswordCmd W req) st in
  let st' := snd (walletPasswordCmd W req st) in
  (forall key m e,
     In (EvEncryptWithAES key m (Err e)) t ->
     fst (walletPasswordCmd W req st) = Done (Some e)
     /\ config st' = config st
     /\ forall c r, ~ In (EvRepoSetConfig c r) t)
  /\ (forall c r,
       In (EvRepoSetConfig c r) t ->
       exists pw cm cp,
         In (EvEncryptWithAES pw (Mnemonic (Identity (config st))) (Ok cm)) t
         /\ In (EvEncryptWithAES pw (PrivKey (Identity (config st))) (Ok cp)) t
         /\ c = set_EncryptedPrivKey cp (set_EncryptedMnemonic cm (config st))
         /\ config st' = c).
Proof.
  intros t st'. subst t st'. split.
  - intros key m e. run; cbn [In]; intros H;
      repeat (destruct H as [H|H]; try done); simplify_eq;
      (split_and!; [done|done|intros c r; cbn [In]; intuition congruence]).
  - intros c r. run; cbn [In]; intros H;
      repeat (destruct H as [H|H]; try done); simplify_eq;
      eexists _, _, _; cbn [In]; split_and!; eauto 10.
Qed.


(** What a successful password-set has done. *)
Lemma walletPasswordCmd_success req st :
  fst (walletPasswordCmd W req st) = Done None ->
  Initialized (Wallet (UI (config st))) = false
  /\ exists pw cm cp,
      nth_error (Arguments req) 0 = Some pw
      /\ wallet_EncryptWithAES _ W pw (Mnemonic (Identity (config st))) = Ok cm
      /\ wallet_EncryptWithAES _ W pw (PrivKey (Identity (config st))) = Ok cp
      /\ config (snd (walletPasswordCmd W req st))
         = set_EncryptedPrivKey cp (set_EncryptedMnemonic cm (config st)).
Proof. run; intros [=]; simplify_eq. split; [done|]. eauto 10. Qed.

(** X4: setting a non-empty password and then presenting it passes the
    gate, provided decryption inverts encryption under the same password:
    after a successful password-set with password [pw], a request carrying
    [pw] is accepted by [validatePassword]. *)
Theorem password_set_then_validate req st (pw : string) req2 :
  (forall key m c,
     wallet_EncryptWithAES _ W key m = Ok c ->
     wallet_DecryptWithAES _ W key c = Ok m) ->
  fst (walletPasswordCmd W req st) = Done None ->
  nth_error (Arguments req) 0 = Some pw ->
  pw <> "" ->
  option_string req2 passwordOptionName = pw ->
  let st' := snd (walletPasswordCmd W req st) in
  password_ok W req2 st' /\ fst (validatePassword W req2 st') = Done None.
Proof.
  intros Hrt Hok Hpw Hne Hreq2 st'. subst st'.
  destruct (walletPasswordCmd_success req st Hok)
    as (_ & pw' & cm & cp & Hpw' & _ & Hcp & Hcfg).
  assert (pw' = pw) as -> by congruence.
  assert (Hgate : password_ok W req2 (snd (walletPasswordCmd W req st))).
  { unfold password_ok. rewrite Hreq2, Hcfg. cbn. split; [done|]. by apply Hrt. }
  split; [done|]. destruct Hgate as [Hne' Hd].
  rewrite validatePassword_run by done. cbn [fst]. rewrite Hd. by case_decide.
Qed.

(** X5: setting the password does not hide the keys.  After a successful
    password-set the key-retrieval command, once node and configuration
    are found, still emits the plaintext private key and mnemonic, to a
    request with no password. *)
Theorem keys_after_password_set req st req2 :
  fst (walletPasswordCmd W req st) = Done None ->
  let st' := snd (walletPasswordCmd W req st) in
  In (EvRepoConfig None) (events_of (walletKeysCmd W req2) st') ->
  exists r,
    fst (walletKeysCmd W req2 st') = Done r
    /\ In (EvEmitOnce
             (OutKeys {| PrivateKey := PrivKey (Identity (config st));
                         Mnemonic_ := Mnemonic (Identity (config st)) |}) r)
          (events_of (walletKeysCmd W req2) st').
Proof.
  intros Hok st'.
  destruct (walletPasswordCmd_success req st Hok) as (Hinit & _).
  destruct (walletPasswordCmd_frame W req st) as (HUI & HP & HM & _).
  cbv zeta in HUI, HP, HM. fold st' in HUI, HP, HM.
  rewrite <- HUI in Hinit. rewrite <- HP, <- HM.
  clearbody st'. clear HUI HP HM Hok.
  run; cbn [In]; intros H; repeat (destruct H as [H|H]; try done);
    try (rewrite Hinit in *; done);
    eexists; (split; [done|]); cbn [In]; eauto 10.
Qed.

(** X6: once node and configuration are found, the password-check command
    emits [Password is correct.] and returns what the emitter answered
    when the password passes the gate, and otherwise returns the error of
    the gate and emits nothing. *)
Theorem check_password_answer req st :
  let t := events_of (walletCheckPasswordCmd W req) st in
  let o := fst (walletCheckPasswordCmd W req st) in
  In (EvRepoConfig None) t ->
  (password_ok W req st ->
   exists r, o = Done r
             /\ In (EvEmitOnce (MessageOutput "Password is correct.") r) t)
  /\ (~ password_ok W req st ->
      o = Done (Some (if decide (option_string req passwordOptionName = "")
                      then errMissingPassword else errIncorrectPassword))
      /\ forall v r, ~ In (EvEmitOnce v r) t).
Proof.
  intros t o. subst t o. unfold password_ok.
  run; cbn [In]; intros Hc; repeat (destruct Hc as [Hc|Hc]; try done).
  all: repeat match goal with
       | H : String.eqb _ _ = true |- _ => apply String.eqb_eq in H
       | H : String.eqb _ _ = false |- _ => apply String.eqb_neq in H
       | H : negb _ = true |- _ => apply negb_true_iff in H
       | H : negb _ = false |- _ => apply negb_false_iff in H
       end.
  all: split; [intros [Hne Hd]|intros Hno].
  all: try congruence.
  all: try (eexists; split; [done|]; cbn [In]; by eauto 10).
  all: try (case_decide; [|done];
            split; [done|intros out ans; cbn [In]; intuition congruence]).
  all: try (case_decide; [done|];
            split; [done|intros out ans; cbn [In]; intuition congruence]).
  all: exfalso; apply Hno; split; [done|congruence].
Qed.

(** X7: when the deposit delegate reported no error, the deposit command
    made exactly these calls: node, configuration, the decryption of the
    gate, the node again, the delegate and one emission.  The delegate got
    the [async] option of the request (false when absent) and the
    [IsDaemon] flag of the second node lookup, and that flag alone picks
    the message: the submitted text when it is set, the done text when it
    is not.  The command returns what the emitter answered. *)
Theorem deposit_success req st amount (d a : bool) :
  In (EvWalletDeposit amount d a None) (events_of (walletDepositCmd W req) st) ->
  exists n1 n2 r,
    events_of (walletDepositCmd W req) st
    = [EvGetNode (Ok n1); EvRepoConfig None;
       EvDecryptWithAES (option_string req passwordOptionName)
         (EncryptedPrivKey (Identity (config st)))
         (Ok (PrivKey (Identity (config st))));
       EvGetNode (Ok n2);
       EvWalletDeposit amount d a None;
       EvEmitOnce
         (MessageOutput
            (if d
             then "BTFS wallet deposit submitted. Please wait one minute for the transaction to confirm."
             else "BTFS wallet deposit Done.")) r]
    /\ d = IsDaemon n2
    /\ a = option_bool req asyncOptionName
    /\ fst (walletDepositCmd W req st) = Done r.
Proof.
  run; cbn [In]; intros H; repeat (destruct H as [H|H]; try done); simplify_eq.
  all: match goal with
       | H : negb (String.eqb _ _) = false |- _ =>
           apply negb_false_iff, String.eqb_eq in H; rewrite <- H
       end.
  all: match goal with
       | H : negb (IsDaemon ?n) = _ |- _ => destruct (IsDaemon n) eqn:?; try done
       end.
  all: eexists _, _, _; split_and!; try done; by rewrite ?Heqb2.
Qed.


(** X9: a delegate only ever receives the amount that [ParseInt] read
    from the amount argument, which fits in [int64]; the transfer delegate
    receives the first argument as the address. *)
Theorem delegate_amounts req st :
  (forall amount d a r,
     In (EvWalletDeposit amount d a r) (events_of (walletDepositCmd W req) st) ->
     in_int64 amount
     /\ exists s, nth_error (Arguments req) 0 = Some s /\ ParseInt s = Ok amount)
  /\ (forall amount r,
     In (EvWalletWithdraw amount r) (events_of (walletWithdrawCmd W req) st) ->
     in_int64 amount
     /\ exists s, nth_error (Arguments req) 0 = Some s /\ ParseInt s = Ok amount)
  /\ (forall to amount r,
     In (EvTransferBTT to amount r) (events_of (walletTransferCmd W req) st) ->
     in_int64 amount
     /\ nth_error (Arguments req) 0 = Some to
     /\ exists s, nth_error (Arguments req) 1 = Some s /\ ParseInt s = Ok amount).
Proof.
  split_and!.
  - intros amount d a r. run; cbn [In]; intros H;
      repeat (destruct H as [H|H]; try done); simplify_eq;
      (split; [by eapply ParseInt_in_int64|eauto]).
  - intros amount r. run; cbn [In]; intros H;
      repeat (destruct H as [H|H]; try done); simplify_eq;
      (split; [by eapply ParseInt_in_int64|eauto]).
  - intros to amount r. run; cbn [In]; intros H;
      repeat (destruct H as [H|H]; try done); simplify_eq;
      (split_and!; [by eapply ParseInt_in_int64|done|eauto]).
Qed.

(** X10: the transfer command returns an error of its delegate as it is,
    whatever its text, and emits nothing; for an answer of the delegate it
    emits the [Result] of the answer with the message [transaction],
    the [TxId], [sent], and returns what the emitter answered. *)
Theorem transfer_result req st (to : string) amount :
  let t := events_of (walletTransferCmd W req) st in
  let o := fst (walletTransferCmd W req st) in
  (forall e,
     In (EvTransferBTT to amount (Err e)) t ->
     o = Done (Some e) /\ forall v r, ~ In (EvEmitOnce v r) t)
  /\ (forall ret,
     In (EvTransferBTT to amount (Ok ret)) t ->
     exists r,
       o = Done r
       /\ In (EvEmitOnce
                (OutTransferResult
                   {| Result := ret_Result ret;
                      Message := "transaction " ++ TxId ret ++ " sent" |}) r) t).
Proof.
  intros t o. subst t o. split.
  - intros e. run; cbn [In]; intros H;
      repeat (destruct H as [H|H]; try done); simplify_eq;
      (split; [done|intros out ans; cbn [In]; intuition congruence]).
  - intros ret. run; cbn [In]; intros H;
      repeat (destruct H as [H|H]; try done); simplify_eq;
      eexists; (split; [done|]); cbn [In]; eauto 10.
Qed.

(** X11: when the withdraw delegate reported no error, the withdraw
    command emits the submitted message once, as its last call, and
    returns what the emitter answered. *)
Theorem withdraw_success req st amount :
  In (EvWalletWithdraw amount None) (events_of (walletWithdrawCmd W req) st) ->
  exists (t : list (event Other)) r,
    events_of (walletWithdrawCmd W req) st
    = app t [EvWalletWithdraw amount None;
             EvEmitOnce
               (MessageOutput
                  "BTFS wallet withdraw submitted. Please wait one minute for the transaction to confirm.")
               r]
    /\ (forall ev, In ev t -> is_emit ev = false)
    /\ fst (walletWithdrawCmd W req st) = Done r.
Proof.
  run; cbn [In]; intros H; repeat (destruct H as [H|H]; try done); simplify_eq.
  eexists [_; _; _], _. split_and!; [done| |done].
  intros ev Hev. cbn [In] in Hev.
  repeat (destruct Hev as [<-|Hev]; try done).
Qed.

(** X12: the restart command never returns without error: it ends in an
    error, in the exit of the process with code 0, or in a panic.  It
    panics exactly when the post-path-modification option is not a bool,
    and then it has called nothing. *)
Theorem restart_outcomes req st :
  let o := fst (restartCmd W req st) in
  o <> Done None
  /\ (forall code, o = Exited code -> code = 0)
  /\ ((exists msg, o = Panicked msg)
      <-> forall b, Options req !! postPathModificationName <> Some (VBool b))
  /\ ((exists msg, o = Panicked msg) -> events_of (restartCmd W req) st = []).
Proof.
  intros o. subst o. split_and!.
  - run; done.
  - intros code. run; intros [=]; done.
  - split.
    + intros [msg Hmsg] b Hb. revert Hmsg.
      unfold events_of; unfold_cmds; rewrite Hb; cbn beta iota. run; done.
    + intros Hno. run; try (by eexists); by edestruct Hno.
  - intros [msg Hmsg]. revert Hmsg. run; done.
Qed.

(** X13: when the amount argument of deposit, withdraw or transfer is
    absent, no delegate is called and nothing is emitted.  Once node and
    configuration are found, a request whose password fails the gate gets
    the error of the gate, and one whose password passes runs into the
    index panic. *)
Theorem missing_amount cmd (i : nat) req st :
  In (cmd, i) [(walletDepositCmd W, 0%nat); (walletWithdrawCmd W, 0%nat);
               (walletTransferCmd W, 1%nat)] ->
  nth_error (Arguments req) i = None ->
  let t := events_of (cmd req) st in
  let o := fst (cmd req st) in
  (forall ev, In ev t -> is_delegate ev = false /\ is_emit ev = false)
  /\ (In (EvRepoConfig None) t -> password_ok W req st ->
      exists msg, o = Panicked msg)
  /\ (In (EvRepoConfig None) t -> ~ password_ok W req st ->
      o = Done (Some (if decide (option_string req passwordOptionName = "")
                      then errMissingPassword else errIncorrectPassword))).
Proof.
  intros Hcmd Hs t o. subst t o. unfold password_ok. cbn [In] in Hcmd.
  split_and!.
  all: destruct Hcmd as [[= <- <-]|[[= <- <-]|[[= <- <-]|[]]]].
  all: unfold events_of; unfold_cmds; rewrite Hs; cbn beta iota.
  all: run; cbn [In].
  all: try (intros ev Hev; repeat (destruct Hev as [<-|Hev]; try done); done).
  all: intros Hc Hpw; repeat (destruct Hc as [Hc|Hc]; try done).
  all: try (destruct Hpw as [Hne Hd]).
  all: repeat match goal with
       | H : String.eqb _ _ = true |- _ => apply String.eqb_eq in H
       | H : String.eqb _ _ = false |- _ => apply String.eqb_neq in H
       | H : negb _ = true |- _ => apply negb_true_iff in H
       | H : negb _ = false |- _ => apply negb_false_iff in H
       end.
  all: try case_decide; try done; try congruence; try (by eexists).
  all: exfalso; apply Hpw; split; [done|congruence].
Qed.

End More.

(** ** The commands without password gate *)

Section MoreUngated.

Context {Other Tx : Type} (S : Ungated.Services Other Tx).

Implicit Types (req : Request) (st : Ungated.State Other Tx) (e : error).

Lemma uint64_of_int64 (v : Z) :
  in_int64 v ->
  Ungated.uint64 v = if 0 <=? v then v else v + 2 ^ 64.
Proof.
  unfold in_int64, Ungated.uint64. intros Hv.
  destruct (Z.leb_spec 0 v).
  - apply Z.mod_small. lia.
  - symmetry. apply (Z.mod_unique_pos _ _ (-1)); lia.
Qed.

(** X14: when the balance query answered with the pair of balances, the
    balance command logs them in signed decimal and emits them converted
    to [uint64], the ledger balance as [BtfsWalletBalance] and the tron
    balance as [BttWalletBalance]: a balance that is not negative is
    emitted as it is, and a negative one [v] is emitted as [v + 2^64].
    The command returns what the emitter answered. *)
Theorem balance_response req st (tron ledger : Z) :
  In (Ungated.CallGetBalance (Ok (tron, ledger)))
     (Ungated.events_of (Ungated.walletBalanceCmd S req) st) ->
  in_int64 tron ->
  in_int64 ledger ->
  exists r,
    fst (Ungated.walletBalanceCmd S req st) = Done r
    /\ In (Ungated.LogInfo (Ungated.balance_message tron ledger))
          (Ungated.events_of (Ungated.walletBalanceCmd S req) st)
    /\ In (Ungated.CallEmitOnce
             (Ungated.OutBalance
                {| Ungated.BtfsWalletBalance :=
                     if 0 <=? ledger then ledger else ledger + 2 ^ 64;
                   Ungated.BttWalletBalance :=
                     if 0 <=? tron then tron else tron + 2 ^ 64 |}) r)
          (Ungated.events_of (Ungated.walletBalanceCmd S req) st).
Proof.
  intros H Ht Hl. rewrite <- (uint64_of_int64 _ Ht), <- (uint64_of_int64 _ Hl).
  revert H. run_ungated; cbn [In]; intros H;
    repeat (destruct H as [H|H]; try done); simplify_eq.
  eexists. split_and!; [done|tauto|tauto].
Qed.

(** X15: when the balance query fails, the balance command logs the error
    under its fixed message, returns it and emits nothing. *)
Theorem balance_failure req st e :
  In (Ungated.CallGetBalance (Err e))
     (Ungated.events_of (Ungated.walletBalanceCmd S req) st) ->
  fst (Ungated.walletBalanceCmd S req st) = Done (Some e)
  /\ In (Ungated.LogError "wallet get balance failed, ERR: " e)
        (Ungated.events_of (Ungated.walletBalanceCmd S req) st)
  /\ forall v r,
       ~ In (Ungated.CallEmitOnce v r)
            (Ungated.events_of (Ungated.walletBalanceCmd S req) st).
Proof.
  run_ungated; cbn [In]; intros H;
    repeat (destruct H as [H|H]; try done); simplify_eq.
  split_and!; [done|tauto|intros out ans; cbn [In]; intuition congruence].
Qed.

(** X16: once node and configuration are found, the discovery command is
    refused with its already-initialized error when the [Initialized]
    flag is true, without asking for the key; when the flag is false it
    asks for the discovery key, returns the error of that call or emits
    the key.  It takes no password. *)
Theorem discovery_guard req st :
  let t := Ungated.events_of (Ungated.walletDiscoveryCmd S req) st in
  let o := fst (Ungated.walletDiscoveryCmd S req st) in
  In (Ungated.CallRepoConfig None) t ->
  (Initialized (Wallet (UI (Ungated.config st))) = true ->
   o = Done (Some Ungated.errAlreadyInitDiscovery)
   /\ (forall r, ~ In (Ungated.CallDiscoverySpeedKey r) t)
   /\ forall v r, ~ In (Ungated.CallEmitOnce v r) t)
  /\ (Initialized (Wallet (UI (Ungated.config st))) = false ->
      exists k,
        In (Ungated.CallDiscoverySpeedKey k) t
        /\ match k with
           | Err e => o = Done (Some e)
                      /\ forall v r, ~ In (Ungated.CallEmitOnce v r) t
           | Ok key =>
               exists r,
                 o = Done r
                 /\ In (Ungated.CallEmitOnce
                          (Ungated.OutDiscovery {| Ungated.Key := key |}) r) t
           end).
Proof.
  intros t o. subst t o.
  run_ungated; cbn [In]; intros H;
    repeat (destruct H as [H|H]; try done); simplify_eq.
  all: split; intros Hflag; try congruence.
  - split_and!; [done|..]; intros; cbn [In]; intuition congruence.
  - eexists (Ok _). split; [tauto|]. eexists. split; [done|tauto].
  - eexists (Err _). split; [tauto|].
    split; [done|]. intros; cbn [In]; intuition congruence.
Qed.

(** X17: the init command returns without error exactly when it reached
    [wallet.Init], which is as soon as node and configuration are found:
    whatever [wallet.Init] did, the command reports success.  It emits
    nothing, and the configuration object is left as [wallet.Init] left
    it. *)
Theorem init_reports_success req st :
  let t := Ungated.events_of (Ungated.walletInitCmd S req) st in
  let o := fst (Ungated.walletInitCmd S req st) in
  (o = Done None <-> exists cfg', In (Ungated.CallInit cfg') t)
  /\ (In (Ungated.CallRepoConfig None) t ->
      o = Done None
      /\ In (Ungated.CallInit
               (Ungated.config (snd (Ungated.walletInitCmd S req st)))) t)
  /\ forall v r, ~ In (Ungated.CallEmitOnce v r) t.
Proof.
  intros t o. subst t o. split_and!.
  - run_ungated; cbn [In]; split; try done; try (intros _; by eauto 10);
      intros [cfg' H]; repeat (destruct H as [H|H]; try done).
  - run_ungated; cbn [In]; intros H;
      repeat (destruct H as [H|H]; try done); split; [done|tauto].
  - intros out ans. run_ungated; cbn [In]; intuition congruence.
Qed.

(** X18: the import command hands the [privateKey] and [mnemonic] options
    to [wallet.ImportKeys], empty strings standing for absent ones.  If
    the import fails, the command returns that error and launches no
    restart; if it succeeds, the command launches the restart as its last
    step and returns without error.  It never asks for the configuration
    and emits nothing. *)
Theorem import_then_restart req st (privKey mnemonic : string) r cfg' :
  let t := Ungated.events_of (Ungated.walletImportCmd S req) st in
  let o := fst (Ungated.walletImportCmd S req st) in
  In (Ungated.CallImportKeys privKey mnemonic r cfg') t ->
  privKey = option_string req Ungated.privateKeyOptionName
  /\ mnemonic = option_string req Ungated.mnemonicOptionName
  /\ o = Done r
  /\ (exists n,
        t = app [Ungated.CallGetNode (Ok n);
                 Ungated.CallImportKeys privKey mnemonic r cfg']
                (match r with None => [Ungated.GoRestart] | Some _ => [] end))
  /\ Ungated.config (snd (Ungated.walletImportCmd S req st)) = cfg'.
Proof.
  intros t o. subst t o.
  run_ungated; cbn [In]; intros H;
    repeat (destruct H as [H|H]; try done); simplify_eq;
    (split_and!; try done; by eexists).
Qed.

(** X19: the transactions command never asks for the configuration.  It
    returns the error of the transaction query, emitting nothing, or
    emits the transactions as the query gave them and returns what the
    emitter answered. *)
Theorem transactions_passed_on req st :
  let t := Ungated.events_of (Ungated.walletTransactionsCmd S req) st in
  let o := fst (Ungated.walletTransactionsCmd S req st) in
  (forall r, ~ In (Ungated.CallRepoConfig r) t)
  /\ (forall e, In (Ungated.CallGetTransactions (Err e)) t ->
       o = Done (Some e) /\ forall v r, ~ In (Ungated.CallEmitOnce v r) t)
  /\ (forall txs, In (Ungated.CallGetTransactions (Ok txs)) t ->
       exists r, o = Done r
                 /\ In (Ungated.CallEmitOnce (Ungated.OutTransactions txs) r) t).
Proof.
  intros t o. subst t o. split_and!.
  - intros r. run_ungated; cbn [In]; intuition congruence.
  - intros e. run_ungated; cbn [In]; intros H;
      repeat (destruct H as [H|H]; try done); simplify_eq;
      (split; [done|intros out ans; cbn [In]; intuition congruence]).
  - intros txs. run_ungated; cbn [In]; intros H;
      repeat (destruct H as [H|H]; try done); simplify_eq;
      eexists; (split; [done|tauto]).
Qed.

End MoreUngated.

(** ** The further properties on concrete runs *)

Lemma commands_leave_config_witness :
  config (snd (walletKeysCmd (world calm) (request [] []) fresh)) = config fresh.
Proof.
  apply (commands_leave_config (world calm) (walletKeysCmd (world calm))).
  do 5 right. left. reflexivity.
Defined.

Lemma password_set_all_or_nothing_witness :
  let W := faulty_world (fun _ => Ok {| IsDaemon := true |}) None
             (fun _ _ => Err (foreignError "aes: bad key")) in
  config (snd (walletPasswordCmd W (request ["pw"] []) fresh)) = config fresh.
Proof.
  intros W.
  apply (proj1 (password_set_all_or_nothing W (request ["pw"] []) fresh)
           "pw" "words" (foreignError "aes: bad key")).
  vm_compute. auto.
Defined.


Lemma password_set_then_validate_witness :
  let st' := snd (walletPasswordCmd (world calm) (request ["pw"] []) fresh) in
  fst (validatePassword (world calm)
         (request [] [("password", VString "pw")]) st') = Done None.
Proof.
  intros st'.
  apply (password_set_then_validate (world calm) (request ["pw"] []) fresh "pw"
           (request [] [("password", VString "pw")]) unseal_seal).
  - by vm_compute.
  - reflexivity.
  - by vm_compute.
  - by vm_compute.
Defined.

Lemma keys_after_password_set_witness :
  let st' := snd (walletPasswordCmd (world calm) (request ["pw"] []) fresh) in
  exists r,
    fst (walletKeysCmd (world calm) (request [] []) st') = Done r
    /\ In (EvEmitOnce (OutKeys {| PrivateKey := "key"; Mnemonic_ := "words" |}) r)
          (events_of (walletKeysCmd (world calm) (request [] [])) st').
Proof.
  intros st'.
  apply (keys_after_password_set (world calm) (request ["pw"] []) fresh
           (request [] [])).
  - by vm_compute.
  - vm_compute. auto.
Defined.

Lemma check_password_answer_witness :
  let req := request [] [("password", VString "pw")] in
  exists r,
    fst (walletCheckPasswordCmd (world calm) req (locked "pw")) = Done r
    /\ In (EvEmitOnce (MessageOutput "Password is correct.") r)
          (events_of (walletCheckPasswordCmd (world calm) req) (locked "pw")).
Proof.
  intros req.
  apply (check_password_answer (world calm) req (locked "pw")).
  - vm_compute. auto.
  - split; by vm_compute.
Defined.

Lemma deposit_success_witness :
  let req := request ["12"] [("password", VString "pw")] in
  exists n1 n2 r,
    events_of (walletDepositCmd (world calm) req) (locked "pw")
    = [EvGetNode (Ok n1); EvRepoConfig None;
       EvDecryptWithAES "pw" "pw:key" (Ok "key");
       EvGetNode (Ok n2);
       EvWalletDeposit 12 true false None;
       EvEmitOnce
         (MessageOutput
            "BTFS wallet deposit submitted. Please wait one minute for the transaction to confirm.") r]
    /\ true = IsDaemon n2
    /\ false = option_bool req asyncOptionName
    /\ fst (walletDepositCmd (world calm) req (locked "pw")) = Done r.
Proof.
  intros req.
  apply (deposit_success (world calm) req (locked "pw") 12 true false).
  vm_compute. auto 10.
Defined.


Lemma delegate_amounts_witness :
  let req := request ["12"] [("password", VString "pw")] in
  in_int64 12
  /\ exists s, nth_error (Arguments req) 0 = Some s /\ ParseInt s = Ok 12.
Proof.
  intros req.
  apply (proj1 (delegate_amounts (world calm) req (locked "pw")) 12 true false None).
  vm_compute. auto 10.
Defined.

Lemma transfer_result_witness :
  let req := request ["TAddr"; "7"] [("password", VString "pw")] in
  exists r,
    fst (walletTransferCmd (world calm) req (locked "pw")) = Done r
    /\ In (EvEmitOnce
             (OutTransferResult
                {| Result := true; Message := "transaction tx1 sent" |}) r)
          (events_of (walletTransferCmd (world calm) req) (locked "pw")).
Proof.
  intros req.
  apply (proj2 (transfer_result (world calm) req (locked "pw") "TAddr" 7)
           {| TxId := "tx1"; ret_Result := true |}).
  vm_compute. auto 10.
Defined.

Lemma withdraw_success_witness :
  let req := request ["1000000000"] [("password", VString "pw")] in
  exists (t : list (event unit)) r,
    events_of (walletWithdrawCmd (world calm) req) (locked "pw")
    = app t [EvWalletWithdraw 1000000000 None;
             EvEmitOnce
               (MessageOutput
                  "BTFS wallet withdraw submitted. Please wait one minute for the transaction to confirm.")
               r]
    /\ (forall ev, In ev t -> is_emit ev = false)
    /\ fst (walletWithdrawCmd (world calm) req (locked "pw")) = Done r.
Proof.
  intros req.
  apply (withdraw_success (world calm) req (locked "pw") 1000000000).
  vm_compute. auto 10.
Defined.

Lemma restart_outcomes_witness :
  exists msg, fst (restartCmd (world calm) (request [] []) fresh) = Panicked msg.
Proof.
  apply (restart_outcomes (world calm) (request [] []) fresh).
  intros b. by vm_compute.
Defined.

Lemma missing_amount_witness :
  let req := request [] [("password", VString "pw")] in
  exists msg, fst (walletDepositCmd (world calm) req (locked "pw")) = Panicked msg.
Proof.
  intros req.
  apply (missing_amount (world calm) (walletDepositCmd (world calm)) 0 req (locked "pw")).
  - left; reflexivity.
  - reflexivity.
  - vm_compute. auto.
  - split; by vm_compute.
Defined.

Lemma balance_response_witness :
  let S := Ungated.services (Ok (25, -1)) None in
  exists r,
    fst (Ungated.walletBalanceCmd S (request [] []) (Ungated.start_of (config fresh)))
    = Done r
    /\ In (Ungated.LogInfo (Ungated.balance_message 25 (-1)))
          (Ungated.events_of (Ungated.walletBalanceCmd S (request [] []))
             (Ungated.start_of (config fresh)))
    /\ In (Ungated.CallEmitOnce
             (Ungated.OutBalance
                {| Ungated.BtfsWalletBalance := 18446744073709551615;
                   Ungated.BttWalletBalance := 25 |}) r)
          (Ungated.events_of (Ungated.walletBalanceCmd S (request [] []))
             (Ungated.start_of (config fresh))).
Proof.
  intros S.
  apply (balance_response S (request [] []) (Ungated.start_of (config fresh)) 25 (-1)).
  - vm_compute. auto 10.
  - unfold in_int64. lia.
  - unfold in_int64. lia.
Defined.

Lemma balance_failure_witness :
  let S := Ungated.services (Err (foreignError "ledger: unavailable")) None in
  fst (Ungated.walletBalanceCmd S (request [] []) (Ungated.start_of (config fresh)))
  = Done (Some (foreignError "ledger: unavailable")).
Proof.
  intros S.
  apply (balance_failure S (request [] []) (Ungated.start_of (config fresh))).
  vm_compute. auto 10.
Defined.

Lemma discovery_guard_witness :
  let S := Ungated.services (Ok (0, 0)) None in
  exists k,
    In (Ungated.CallDiscoverySpeedKey k)
       (Ungated.events_of (Ungated.walletDiscoveryCmd S (request [] []))
          (Ungated.start_of (config fresh))).
Proof.
  intros S.
  destruct (discovery_guard S (request [] []) (Ungated.start_of (config fresh)))
    as [_ H]; [vm_compute; auto|].
  destruct H as (k & Hk & _); [reflexivity|]. by exists k.
Defined.

Lemma init_reports_success_witness :
  let S := Ungated.services (Ok (0, 0)) None in
  fst (Ungated.walletInitCmd S (request [] []) (Ungated.start_of (config fresh)))
  = Done None.
Proof.
  intros S.
  apply (init_reports_success S (request [] []) (Ungated.start_of (config fresh))).
  vm_compute. auto.
Defined.

Lemma import_then_restart_witness :
  let S := Ungated.services (Ok (0, 0)) (Some (foreignError "import: no key given")) in
  fst (Ungated.walletImportCmd S (request [] []) (Ungated.start_of (config fresh)))
  = Done (Some (foreignError "import: no key given")).
Proof.
  intros S.
  apply (import_then_restart S (request [] []) (Ungated.start_of (config fresh))
           "" "" (Some (foreignError "import: no key given")) (config fresh)).
  vm_compute. auto.
Defined.

Lemma transactions_passed_on_witness :
  let S := Ungated.services (Ok (0, 0)) None in
  exists r,
    fst (Ungated.walletTransactionsCmd S (request [] []) (Ungated.start_of (config fresh)))
    = Done r
    /\ In (Ungated.CallEmitOnce (Ungated.OutTransactions [1%nat; 2%nat]) r)
          (Ungated.events_of (Ungated.walletTransactionsCmd S (request [] []))
             (Ungated.start_of (config fresh))).
Proof.
  intros S.
  apply (transactions_passed_on S (request [] []) (Ungated.start_of (config fresh))).
  vm_compute. auto.
Defined.
